(** * Organization sign-up route ([app/routes/org-signup.tsx])

    A shallow embedding of the route's [action] and of the three helpers it
    calls ([createTenant], [createApiKey], [createApplication]), together
    with the properties of the provisioning workflow.

    The identity provider is an external collaborator.  It is modelled as an
    oracle that answers every client call, given the calls issued so far;
    the workflow runs in a small monad that threads the list of issued calls
    and carries JavaScript exceptions.  The response helpers [redirect] and
    [json] are those of the framework: they throw when the runtime's
    [Headers] or [Response] refuses their argument. *)

From stdpp Require Import base option list strings gmap.
From Stdlib Require Import ZArith.

(** ** JavaScript values that reach the route *)

(** A form entry is a string or an uploaded file ([FormDataEntryValue]). *)
Inductive FormDataEntryValue :=
| EntryString (s : string)
| EntryFile (fileName : string).

(** Truthiness, as tested by [invariant(user.organization, ...)] and by the
    [!x] guards: [undefined] and the empty string are falsy, every object
    is truthy. *)
Definition truthy_string (s : string) : bool :=
  match s with
  | EmptyString => false
  | String _ _ => true
  end.

Definition truthy (v : option FormDataEntryValue) : bool :=
  match v with
  | None => false
  | Some (EntryString s) => truthy_string s
  | Some (EntryFile _) => true
  end.

(** String conversion performed by a template literal [`${v}`]; a property
    that is absent reads as [undefined]. *)
Definition template (v : option FormDataEntryValue) : string :=
  match v with
  | None => "undefined"
  | Some (EntryString s) => s
  | Some (EntryFile _) => "[object File]"
  end.

(** [Object.fromEntries]: properties are defined in iteration order, so a
    later entry with the same name replaces an earlier one. *)
Definition Object_fromEntries (entries : list (string * FormDataEntryValue))
  : gmap string FormDataEntryValue :=
  foldl (fun obj kv => <[kv.1 := kv.2]> obj) ∅ entries.

(** ** Provider payloads *)

(** [ClientResponse<T>] of the provider's client: both fields may be
    absent at run time. *)
Record ClientResponse (T : Type) := {
  statusCode : option Z;
  response : option T;
}.
Arguments statusCode {T} _.
Arguments response {T} _.

(** Values a [throw] or a rejected promise can carry.
    - [Error message]: an [Error] object created with [new Error(message)];
    - [InvariantError message]: the [Error] object [tiny-invariant] throws
      for [invariant(false, message)]; its text is "Invariant failed: "
      followed by [message], or just "Invariant failed" in a production
      build;
    - [Rejection r]: a [ClientResponse] the provider's client rejects with;
    - [NativeError name]: an error raised by the runtime's [Headers] or
      [Response], of class [name] ("TypeError" or "RangeError"); its message
      depends on the runtime and is not modelled. *)
Inductive Thrown :=
| Error (message : string)
| InvariantError (message : string)
| Rejection (r : ClientResponse string)
| NativeError (name : string).

(** A settled promise. *)
Inductive Settled (A : Type) :=
| Resolved (a : A)
| Rejected (e : Thrown).
Arguments Resolved {A} a.
Arguments Rejected {A} e.

Record ApplicationRole := {
  role_name : string;
  role_description : string;
  isDefault : bool;
}.

Record TenantDescriptor := {
  tenant_name : option FormDataEntryValue;
  issuer : string;
}.

Record TenantRequest := {
  sourceTenantId : option string;
  tenant : TenantDescriptor;
}.

Record APIKeyAttributes := { description : string }.
Record APIKeyMetaData := { attributes : APIKeyAttributes }.
Record APIKey := {
  metaData : APIKeyMetaData;
  tenantId : string;
}.
Record APIKeyRequest := { apiKey : APIKey }.

Record LoginConfiguration := { generateRefreshTokens : bool }.
Record Application := {
  application_name : string;
  roles : list ApplicationRole;
  loginConfiguration : LoginConfiguration;
}.
Record ApplicationRequest := {
  application : Application;
  role : option ApplicationRole;
}.

Record UserRegistration := { applicationId : string }.
Record RegistrationRequest := {
  user : gmap string FormDataEntryValue;
  registration : UserRegistration;
}.

(** Response bodies; every level of [result?.response?.entity?.field] may
    be missing. *)
Record CreatedTenant := { tenant_id : option string }.
Record TenantResponse := { created_tenant : option CreatedTenant }.
Record CreatedAPIKey := { key : option string }.
Record APIKeyResponse := { created_apiKey : option CreatedAPIKey }.
Record CreatedApplication := { application_id : option string }.
Record ApplicationResponse := { created_application : option CreatedApplication }.
Record RegistrationResponse := { token : option string }.

(** ** Provider clients and the calls issued on them *)

(** A client is identified by the expression that built it: the service
    helper applied to a tenant name, or [new FusionAuthClient(key, host)]. *)
Inductive Client :=
| ServiceClient (tenant : string)
| FusionAuthClient (apiKey : string) (host : option string).

(** Modelled from the spec: [~/services/get_fusion_auth_client] is imported
    by the route but is not among the sources.  The spec describes it as
    "a named "default" client construction (tenant-unscoped) vs. per-tenant
    client construction"; the client it returns is determined by its
    argument. *)
Definition getFusionAuthClient (tenant : string) : Client :=
  ServiceClient tenant.

Inductive Operation :=
| CreateTenant (tenantId : string) (request : TenantRequest)
| CreateAPIKey (keyId : string) (request : APIKeyRequest)
| CreateApplication (applicationId : string) (request : ApplicationRequest)
| RegisterUser (userId : string) (request : RegistrationRequest).

Record Invocation := {
  via : Client;
  operation : Operation;
}.

Definition Trace := list Invocation.

(** The provider: what each call settles to, given the calls made before. *)
Record Provider := {
  tenantReply : Trace -> Client -> string -> TenantRequest ->
                Settled (option (ClientResponse TenantResponse));
  apiKeyReply : Trace -> Client -> string -> APIKeyRequest ->
                Settled (option (ClientResponse APIKeyResponse));
  applicationReply : Trace -> Client -> string -> ApplicationRequest ->
                Settled (option (ClientResponse ApplicationResponse));
  registerReply : Trace -> Client -> string -> RegistrationRequest ->
                Settled (option (ClientResponse RegistrationResponse));
}.

(** What the route reads from its surroundings.  [nativeFetch] tells which
    [Headers] and [Response] the server runs on: the runtime's own, which
    follow the Fetch standard, or the polyfill that Remix installs
    otherwise. *)
Record Environment := {
  FUSIONAUTH_BASE_URL : option string;
  clientTenantId : Client -> option string;
  provider : Provider;
  nativeFetch : bool;
}.

(** ** The monad of the route: calls issued so far, and exceptions *)

Inductive Outcome (A : Type) :=
| Returned (a : A)
| Threw (e : Thrown).
Arguments Returned {A} a.
Arguments Threw {A} e.

Definition Async (A : Type) : Type :=
  Environment -> Trace -> Outcome A * Trace.

#[global] Instance Async_ret : MRet Async :=
  fun A a _ tr => (Returned a, tr).

#[global] Instance Async_bind : MBind Async :=
  fun A B f m env tr =>
    match m env tr with
    | (Returned a, tr') => f a env tr'
    | (Threw e, tr') => (Threw e, tr')
    end.

Definition throw {A} (e : Thrown) : Async A :=
  fun _ tr => (Threw e, tr).

Definition try_catch {A} (body : Async A) (handler : Thrown -> Async A) : Async A :=
  fun env tr =>
    match body env tr with
    | (Returned a, tr') => (Returned a, tr')
    | (Threw e, tr') => handler e env tr'
    end.

Definition await {A} (promise : Async (Settled A)) : Async A :=
  p ← promise;
  match p with
  | Resolved a => mret a
  | Rejected e => throw e
  end.

Definition getenv {A} (f : Environment -> A) : Async A :=
  fun env tr => (Returned (f env), tr).

(** Issue one call: the provider answers from the history, and the call is
    appended to it. *)
Definition issue {R} (c : Client) (op : Operation)
    (reply : Provider -> Trace -> Settled R) : Async (Settled R) :=
  fun env tr =>
    (Returned (reply (provider env) tr), tr ++ [ {| via := c; operation := op |} ]).

(** [tiny-invariant]: nothing happens when the condition is truthy,
    otherwise its error is thrown. *)
Definition invariant (condition : bool) (message : string) : Async unit :=
  if condition then mret tt else throw (InvariantError message).

(** The four client methods the route uses. *)
Module FusionAuth.

Definition createTenant (c : Client) (tenantId : string) (request : TenantRequest) :=
  issue c (CreateTenant tenantId request)
        (fun p tr => tenantReply p tr c tenantId request).

Definition createAPIKey (c : Client) (keyId : string) (request : APIKeyRequest) :=
  issue c (CreateAPIKey keyId request)
        (fun p tr => apiKeyReply p tr c keyId request).

Definition createApplication (c : Client) (applicationId : string)
    (request : ApplicationRequest) :=
  issue c (CreateApplication applicationId request)
        (fun p tr => applicationReply p tr c applicationId request).

Definition register (c : Client) (userId : string) (request : RegistrationRequest) :=
  issue c (RegisterUser userId request)
        (fun p tr => registerReply p tr c userId request).

End FusionAuth.

(** ** The route *)

Definition configuredRoles : list ApplicationRole :=
  [ {| role_name := "admin";
       role_description := "Admin role inside the organization";
       isDefault := false |};
    {| role_name := "member";
       role_description := "Member role";
       isDefault := true |} ].

(** [createTenantResult?.response?.tenant?.id] *)
Definition tenantIdOf (r : option (ClientResponse TenantResponse)) : option string :=
  result ← r; body ← response result; entity ← created_tenant body; tenant_id entity.

(** [createAPIKeyResult?.response?.apiKey?.key] *)
Definition apiKeyOf (r : option (ClientResponse APIKeyResponse)) : option string :=
  result ← r; body ← response result; entity ← created_apiKey body; key entity.

(** [createAppResult?.response?.application?.id] *)
Definition applicationIdOf (r : option (ClientResponse ApplicationResponse)) : option string :=
  result ← r; body ← response result; entity ← created_application body; application_id entity.

(** [if (!x) throw new Error(message); return x] on an optional string. *)
Definition require_string (x : option string) (message : string) : Async string :=
  match x with
  | Some s => if truthy_string s then mret s else throw (Error message)
  | None => throw (Error message)
  end.

Definition tenantConfig (env : Environment) (organizationId : option FormDataEntryValue)
  : TenantRequest :=
  {| sourceTenantId := clientTenantId env (getFusionAuthClient "default");
     tenant := {| tenant_name := organizationId; issuer := "saasbp.io" |} |}.

Definition createTenant (organizationId : option FormDataEntryValue) : Async string :=
  config ← getenv (fun env => tenantConfig env organizationId);
  createTenantResult ←
    await (FusionAuth.createTenant (getFusionAuthClient "default") "" config);
  require_string (tenantIdOf createTenantResult)
    "Couldn't create tenant. FusionAuth response was empty!".

Definition apiKeyRequest (organizationName : option FormDataEntryValue) (tenantId : string)
  : APIKeyRequest :=
  {| apiKey :=
       {| metaData :=
            {| attributes :=
                 {| description := "API key for " +:+ template organizationName |} |};
          tenantId := tenantId |} |}.

Definition createApiKey (organizationName : option FormDataEntryValue) (tenantId : string)
  : Async string :=
  createAPIKeyResult ←
    await (FusionAuth.createAPIKey (getFusionAuthClient "default") ""
             (apiKeyRequest organizationName tenantId));
  require_string (apiKeyOf createAPIKeyResult)
    "FusionAuth API key create call was successful, but no API key was returned!".

Definition newFusionAuthAppConfig (organizationId : option FormDataEntryValue) : Application :=
  {| application_name := template organizationId +:+ " App";
     roles := configuredRoles;
     loginConfiguration := {| generateRefreshTokens := true |} |}.

Definition applicationRequest (organizationId : option FormDataEntryValue) : ApplicationRequest :=
  {| application := newFusionAuthAppConfig organizationId;
     role := configuredRoles !! 0%nat |}.

Definition createApplication (organizationId : option FormDataEntryValue) (lockedApiKey : string)
  : Async string :=
  baseUrl ← getenv FUSIONAUTH_BASE_URL;
  let newFusionAuthClient := FusionAuthClient lockedApiKey baseUrl in
  createAppResult ←
    await (FusionAuth.createApplication newFusionAuthClient ""
             (applicationRequest organizationId));
  require_string (applicationIdOf createAppResult)
    "An error occurred while creating the FusionAuth application.".

(** The incoming request: only its form data is read. *)
Record Request := {
  formData : Settled (list (string * FormDataEntryValue));
}.

(** What the action hands back to the framework: the response that
    [redirect(url)] or [json(data, init)] has built. *)
Record ErrorDetail := { error_message : option string }.
Record ErrorBody := { error : ErrorDetail }.
Record ResponseInit := { status : option Z }.

Inductive Response :=
| redirect (url : string)
| json (data : ErrorBody) (init : ResponseInit).

(** Property reads [err.response] and [err.statusCode] in the handler. *)
Definition thrown_response (e : Thrown) : option string :=
  match e with
  | Rejection r => response r
  | Error _ | InvariantError _ | NativeError _ => None
  end.

Definition thrown_statusCode (e : Thrown) : option Z :=
  match e with
  | Rejection r => statusCode r
  | Error _ | InvariantError _ | NativeError _ => None
  end.

(** The two response helpers of [@remix-run/node].  Both build their
    response with the runtime's [Headers] and [Response], which refuse some
    arguments by throwing. *)
Module Remix.

(** The bytes of a header value.  Strings of this development are
    sequences of one-byte characters; a code unit above 0xFF, which every
    [Headers] refuses as well, has no counterpart here. *)
Definition bytes (value : string) : list N :=
  Ascii.N_of_ascii <$> String.list_ascii_of_string value.

(** Tab, line feed, carriage return and space. *)
Definition is_http_whitespace (c : N) : bool :=
  (c =? 0x09)%N || (c =? 0x0A)%N || (c =? 0x0D)%N || (c =? 0x20)%N.

Fixpoint strip_leading (value : list N) : list N :=
  match value with
  | [] => []
  | c :: rest => if is_http_whitespace c then strip_leading rest else value
  end.

(** A standard [Headers] strips white space from both ends of a value. *)
Definition normalize (value : list N) : list N :=
  rev (strip_leading (rev (strip_leading value))).

(** NUL, line feed and carriage return may not occur in what is left. *)
Definition forbidden (c : N) : bool :=
  (c =? 0x00)%N || (c =? 0x0A)%N || (c =? 0x0D)%N.

(** The polyfill strips nothing and admits tab, 0x20 to 0x7E and 0x80 to
    0xFF. *)
Definition admitted (c : N) : bool :=
  (c =? 0x09)%N || ((0x20 <=? c)%N && (c <=? 0x7E)%N) || (0x80 <=? c)%N.

(** [headers.set("Location", value)] does not throw. *)
Definition headerValueAccepted (native : bool) (value : string) : bool :=
  if native then forallb (fun c => negb (forbidden c)) (normalize (bytes value))
  else forallb admitted (bytes value).

(** Statuses for which a response may not have a body. *)
Definition null_body_status (s : Z) : bool :=
  (s =? 101)%Z || (s =? 103)%Z || (s =? 204)%Z || (s =? 205)%Z || (s =? 304)%Z.

(** The class of the error [new Response(body, { status })] throws, if
    any.  A standard [Response] reads the status as an unsigned short,
    wants it within 200..599 and, as there is a body, not a null-body
    status; an absent status stands for 200.  The polyfill checks
    nothing. *)
Definition statusError (native : bool) (status : option Z) : option string :=
  match status with
  | None => None
  | Some z =>
      if native then
        let s := (z mod 65536)%Z in
        if (s <? 200)%Z || (599 <? s)%Z then Some "RangeError"
        else if null_body_status s then Some "TypeError"
        else None
      else None
  end.

Definition redirect (url : string) : Async Response :=
  native ← getenv nativeFetch;
  if headerValueAccepted native url then mret (redirect url)
  else throw (NativeError "TypeError").

Definition json (data : ErrorBody) (init : ResponseInit) : Async Response :=
  native ← getenv nativeFetch;
  match statusError native (status init) with
  | None => mret (json data init)
  | Some name => throw (NativeError name)
  end.

End Remix.

Definition registrationRequest (user : gmap string FormDataEntryValue)
    (applicationId : string) : RegistrationRequest :=
  {| user := user; registration := {| applicationId := applicationId |} |}.

Definition action (request : Request) : Async Response :=
  formData ← await (mret (formData request));
  let user := Object_fromEntries formData in
  _ ← invariant (truthy (user !! "organization")) "Organization name is required";
  let orgName := user !! "organization" in
  tenantId ← createTenant orgName;
  lockedApiKey ← createApiKey orgName tenantId;
  applicationId ← createApplication orgName lockedApiKey;
  try_catch
    (let registrationRequest := registrationRequest user applicationId in
     _ ← await (FusionAuth.register (getFusionAuthClient tenantId) "" registrationRequest);
     Remix.redirect (template orgName +:+ ".saasbp.io/signin"))
    (fun err =>
       Remix.json {| error := {| error_message := thrown_response err |} |}
                  {| status := thrown_statusCode err |}).

(** ** The calls the route issues *)

Definition defaultClient : Client := getFusionAuthClient "default".

Definition tenantCall (env : Environment) (orgName : option FormDataEntryValue) : Invocation :=
  {| via := defaultClient; operation := CreateTenant "" (tenantConfig env orgName) |}.

Definition apiKeyCall (orgName : option FormDataEntryValue) (tenantId : string) : Invocation :=
  {| via := defaultClient; operation := CreateAPIKey "" (apiKeyRequest orgName tenantId) |}.

Definition applicationCall (env : Environment) (orgName : option FormDataEntryValue)
    (lockedApiKey : string) : Invocation :=
  {| via := FusionAuthClient lockedApiKey (FUSIONAUTH_BASE_URL env);
     operation := CreateApplication "" (applicationRequest orgName) |}.

Definition registerCall (user : gmap string FormDataEntryValue)
    (tenantId applicationId : string) : Invocation :=
  {| via := getFusionAuthClient tenantId;
     operation := RegisterUser "" (registrationRequest user applicationId) |}.

(** ** Provider behaviour named by the properties *)

(** The optional string [x] is the non-empty string [s]: it passes the
    [!x] guard. *)
Definition has_value (x : option string) (s : string) : bool :=
  bool_decide (x = Some s) && truthy_string s.

(** The tenant-creation call issued after [tr] resolves with tenant id [t]. *)
Definition tenantCreated (env : Environment) (orgName : option FormDataEntryValue)
    (tr : Trace) (t : string) : bool :=
  match tenantReply (provider env) tr defaultClient "" (tenantConfig env orgName) with
  | Resolved r => has_value (tenantIdOf r) t
  | Rejected _ => false
  end.

(** The key-creation call issued after [tr] resolves with key [k]. *)
Definition apiKeyCreated (env : Environment) (orgName : option FormDataEntryValue)
    (tr : Trace) (t k : string) : bool :=
  match apiKeyReply (provider env) tr defaultClient "" (apiKeyRequest orgName t) with
  | Resolved r => has_value (apiKeyOf r) k
  | Rejected _ => false
  end.

(** The application-creation call issued after [tr] resolves with id [a]. *)
Definition applicationCreated (env : Environment) (orgName : option FormDataEntryValue)
    (tr : Trace) (k a : string) : bool :=
  match applicationReply (provider env) tr
          (FusionAuthClient k (FUSIONAUTH_BASE_URL env)) "" (applicationRequest orgName) with
  | Resolved r => has_value (applicationIdOf r) a
  | Rejected _ => false
  end.

(** Steps 1 to 3 succeed from [tr], yielding tenant [t], key [k] and
    application [a]. *)
Definition provisioned (env : Environment) (orgName : option FormDataEntryValue)
    (tr : Trace) (t k a : string) : bool :=
  tenantCreated env orgName tr t
  && apiKeyCreated env orgName (tr ++ [tenantCall env orgName]) t k
  && applicationCreated env orgName
       (tr ++ [tenantCall env orgName; apiKeyCall orgName t]) k a.

(** The calls of steps 1 to 3, and the four calls of a complete run. *)
Definition provisioningCalls (env : Environment) (orgName : option FormDataEntryValue)
    (t k : string) : Trace :=
  [ tenantCall env orgName; apiKeyCall orgName t; applicationCall env orgName k ].

Definition fullRun (env : Environment) (user : gmap string FormDataEntryValue)
    (t k a : string) : Trace :=
  provisioningCalls env (user !! "organization") t k ++ [registerCall user t a].

(** What the registration call settles to once steps 1 to 3 have run. *)
Definition registerSettles (env : Environment) (user : gmap string FormDataEntryValue)
    (tr : Trace) (t k a : string) : Settled (option (ClientResponse RegistrationResponse)) :=
  registerReply (provider env)
    (tr ++ provisioningCalls env (user !! "organization") t k)
    (getFusionAuthClient t) "" (registrationRequest user a).

(** The result of the [try] block and its handler, once the registration
    call has settled: the redirect, unless [redirect] refuses the target
    and the handler answers for the error it threw; for a rejection, the
    handler's JSON result, unless [json] refuses the status. *)
Definition afterRegistration (env : Environment) (orgName : option FormDataEntryValue)
    (reply : Settled (option (ClientResponse RegistrationResponse))) : Outcome Response :=
  match reply with
  | Resolved _ =>
      let target := template orgName +:+ ".saasbp.io/signin" in
      if Remix.headerValueAccepted (nativeFetch env) target
      then Returned (redirect target)
      else Returned (json {| error := {| error_message := None |} |}
                          {| status := None |})
  | Rejected err =>
      match Remix.statusError (nativeFetch env) (thrown_statusCode err) with
      | None => Returned (json {| error := {| error_message := thrown_response err |} |}
                               {| status := thrown_statusCode err |})
      | Some name => Threw (NativeError name)
      end
  end.

(** The admin role, as the properties name it. *)
Definition adminRole : ApplicationRole :=
  {| role_name := "admin";
     role_description := "Admin role inside the organization";
     isDefault := false |}.

(** The string starts with the [https] scheme. *)
Definition is_https_url (url : string) : bool :=
  String.prefix "https://" url.

(** ** Sample submissions and providers *)

Definition ok {T} (body : T) : Settled (option (ClientResponse T)) :=
  Resolved (Some {| statusCode := Some 200%Z; response := Some body |}).

(** A provider that answers each kind of call the same way every time. *)
Definition scripted
    (t : Settled (option (ClientResponse TenantResponse)))
    (k : Settled (option (ClientResponse APIKeyResponse)))
    (a : Settled (option (ClientResponse ApplicationResponse)))
    (r : Settled (option (ClientResponse RegistrationResponse))) : Provider :=
  {| tenantReply _ _ _ _ := t;
     apiKeyReply _ _ _ _ := k;
     applicationReply _ _ _ _ := a;
     registerReply _ _ _ _ := r |}.

Definition tenant_t1 := ok {| created_tenant := Some {| tenant_id := Some "t1" |} |}.
Definition key_k1 := ok {| created_apiKey := Some {| key := Some "k1" |} |}.
Definition application_a1 :=
  ok {| created_application := Some {| application_id := Some "a1" |} |}.
Definition registration_done := ok {| token := None |}.

Definition environment_of (p : Provider) : Environment :=
  {| FUSIONAUTH_BASE_URL := Some "http://localhost:9011";
     clientTenantId := fun _ => Some "t0";
     provider := p;
     nativeFetch := true |}.

(** Every call succeeds. *)
Definition happy_env : Environment :=
  environment_of (scripted tenant_t1 key_k1 application_a1 registration_done).

(** Tenant creation answers 200 with an empty body. *)
Definition empty_tenant_env : Environment :=
  environment_of
    (scripted (Resolved (Some {| statusCode := Some 200%Z; response := None |}))
              key_k1 application_a1 registration_done).

(** Registration is refused: the e-mail address is taken. *)
Definition duplicate_email : Thrown :=
  Rejection {| statusCode := Some 400%Z; response := Some "email already exists" |}.

Definition duplicate_email_env : Environment :=
  environment_of
    (scripted tenant_t1 key_k1 application_a1 (Rejected duplicate_email)).

Definition acme_entries : list (string * FormDataEntryValue) :=
  [ ("email", EntryString "owner@acme.test");
    ("password", EntryString "correct horse");
    ("organization", EntryString "acme-corp") ].

Definition acme_request : Request := {| formData := Resolved acme_entries |}.

Definition anonymous_entries : list (string * FormDataEntryValue) :=
  [ ("email", EntryString "owner@acme.test");
    ("password", EntryString "correct horse") ].

Definition anonymous_request : Request := {| formData := Resolved anonymous_entries |}.

(** ** Reading the issued calls *)

(** The client method a call went to, and the id passed as its first
    argument. *)
Definition operation_name (op : Operation) : string :=
  match op with
  | CreateTenant _ _ => "createTenant"
  | CreateAPIKey _ _ => "createAPIKey"
  | CreateApplication _ _ => "createApplication"
  | RegisterUser _ _ => "register"
  end.

Definition operation_id (op : Operation) : string :=
  match op with
  | CreateTenant id _ | CreateAPIKey id _
  | CreateApplication id _ | RegisterUser id _ => id
  end.

(** More sample providers and submissions. *)

(** Key creation answers 200 without a key. *)
Definition keyless_env : Environment :=
  environment_of
    (scripted tenant_t1 (ok {| created_apiKey := None |}) application_a1 registration_done).

(** Application creation answers 200 with an empty id. *)
Definition appless_env : Environment :=
  environment_of
    (scripted tenant_t1 key_k1
       (ok {| created_application := Some {| application_id := Some "" |} |})
       registration_done).

(** The organization field holds an uploaded file. *)
Definition file_entries : list (string * FormDataEntryValue) :=
  [ ("email", EntryString "owner@acme.test");
    ("organization", EntryFile "logo.png") ].

Definition file_request : Request := {| formData := Resolved file_entries |}.

(** The organization name contains a line feed. *)
Definition two_line_name : string :=
  "a" +:+ String (Ascii.ascii_of_N 10) "b".

Definition two_line_entries : list (string * FormDataEntryValue) :=
  [ ("email", EntryString "owner@acme.test");
    ("organization", EntryString two_line_name) ].

Definition two_line_request : Request := {| formData := Resolved two_line_entries |}.

(** Registration is rejected with a status no response with a body may
    carry. *)
Definition not_modified : Thrown :=
  Rejection {| statusCode := Some 304%Z; response := Some "not modified" |}.

Definition not_modified_env : Environment :=
  environment_of (scripted tenant_t1 key_k1 application_a1 (Rejected not_modified)).

(** The same provider behind the polyfill. *)
Definition polyfill (env : Environment) : Environment :=
  {| FUSIONAUTH_BASE_URL := FUSIONAUTH_BASE_URL env;
     clientTenantId := clientTenantId env;
     provider := provider env;
     nativeFetch := false |}.

(** The organization field is submitted twice. *)
Definition repeated_entries : list (string * FormDataEntryValue) :=
  [ ("organization", EntryString "first");
    ("email", EntryString "owner@acme.test");
    ("organization", EntryString "acme-corp") ].

Definition repeated_request : Request := {| formData := Resolved repeated_entries |}.

(** ** The sign-up form ([SignUp]) *)

Module SignUp.

(** Strings of the form are sequences of UTF-16 code units: the two
    regular expressions of the organization field have no [u] flag and
    work on code units. *)

(** The code units of a string of one-byte characters. *)
Definition units (s : string) : list N :=
  Ascii.N_of_ascii <$> String.list_ascii_of_string s.

Definition between (lo hi c : N) : bool :=
  (lo <=? c)%N && (c <=? hi)%N.

(** The class [\s]: white space and line terminators. *)
Definition is_space (c : N) : bool :=
  between 0x09 0x0D c || (c =? 0x20)%N || (c =? 0xA0)%N || (c =? 0x1680)%N
  || between 0x2000 0x200A c || (c =? 0x2028)%N || (c =? 0x2029)%N
  || (c =? 0x202F)%N || (c =? 0x205F)%N || (c =? 0x3000)%N || (c =? 0xFEFF)%N.

(** The characters that [[^a-zA-Z0-9-]] does not match. *)
Definition is_slug_char (c : N) : bool :=
  between 0x61 0x7A c || between 0x41 0x5A c || between 0x30 0x39 c || (c =? 0x2D)%N.

Definition hyphen : N := 0x2D%N.

(** [value.replace(/\s+/g, "-")]: every maximal run of white space becomes
    one hyphen.  [in_run] tells that the previous code unit was white space. *)
Fixpoint replace_spaces (in_run : bool) (value : list N) : list N :=
  match value with
  | [] => []
  | c :: rest =>
      if is_space c then
        if in_run then replace_spaces true rest
        else hyphen :: replace_spaces true rest
      else c :: replace_spaces false rest
  end.

(** [.replace(/[^a-zA-Z0-9-]/g, "")] *)
Definition remove_others (value : list N) : list N :=
  List.filter is_slug_char value.

(** The slug computed by the organization field's [onChange]. *)
Definition slug (value : list N) : list N :=
  remove_others (replace_spaces false value).

(** [useState("")] and the change handler [setOrgName(slug)]. *)
Definition initialOrgName : list N := [].

Definition onChange (value : list N) (orgName : list N) : list N :=
  slug value.

(** The field after a sequence of change events. *)
Definition afterChanges (values : list (list N)) : list N :=
  foldl (fun orgName value => onChange value orgName) initialOrgName values.

(** [orgName && `${orgName}.sass.io will be your custom domain.`] *)
Definition domainHint (orgName : list N) : list N :=
  match orgName with
  | [] => []
  | _ :: _ => orgName ++ units ".sass.io will be your custom domain."
  end.

(** The password field's [onChange]: the custom validity message it sets. *)
Definition passwordValidity (value : list N) : string :=
  if (length value <? 8)%nat then "Password must be at least 8 characters" else "".

End SignUp.

(** ** The monad behaves as sequencing with exceptions *)

Lemma bind_returned {A B} (a : A) (f : A -> Async B) env tr :
  (mret a ≫= f) env tr = f a env tr.
Proof. reflexivity. Qed.

Lemma bind_threw {A B} (e : Thrown) (f : A -> Async B) env tr :
  (throw e ≫= f) env tr = (Threw e, tr).
Proof. reflexivity. Qed.

Lemma bind_assoc {A B C} (m : Async A) (f : A -> Async B) (g : B -> Async C) env tr :
  ((m ≫= f) ≫= g) env tr = (m ≫= (fun a => f a ≫= g)) env tr.
Proof.
  unfold mbind, Async_bind. destruct (m env tr) as [[a|e] tr']; reflexivity.
Qed.

Lemma try_catch_returned {A} (a : A) (handler : Thrown -> Async A) env tr :
  try_catch (mret a) handler env tr = (Returned a, tr).
Proof. reflexivity. Qed.

Lemma try_catch_threw {A} (e : Thrown) (handler : Thrown -> Async A) env tr :
  try_catch (throw e) handler env tr = handler e env tr.
Proof. reflexivity. Qed.

Lemma await_issue {R} c op (reply : Provider -> Trace -> Settled R) env tr :
  await (issue c op reply) env tr =
  match reply (provider env) tr with
  | Resolved r => (Returned r, tr ++ [ {| via := c; operation := op |} ])
  | Rejected e => (Threw e, tr ++ [ {| via := c; operation := op |} ])
  end.
Proof.
  unfold await, issue, mbind, Async_bind. destruct (reply _ _); reflexivity.
Qed.

(** Case analysis on the provider's answer that the goal branches on. *)
Ltac settle :=
  match goal with
  | |- context [match ?reply with Resolved _ => _ | Rejected _ => _ end] =>
      destruct reply
  end.

(** ** Form data *)

Lemma fromEntries_missing name (entries : list (string * FormDataEntryValue)) :
  name ∉ entries.*1 -> Object_fromEntries entries !! name = None.
Proof.
  unfold Object_fromEntries.
  cut (forall obj : gmap string FormDataEntryValue,
          name ∉ entries.*1 ->
          foldl (fun obj kv => <[kv.1 := kv.2]> obj) obj entries !! name = obj !! name).
  { intros H Hn. rewrite H by assumption. apply lookup_empty. }
  induction entries as [|[k v] entries IH]; intros obj Hn; [reflexivity|].
  cbn in *. apply not_elem_of_cons in Hn as [Hk Hn].
  rewrite IH by assumption. apply lookup_insert_ne. congruence.
Qed.

Lemma fromEntries_last name v (entries : list (string * FormDataEntryValue)) :
  Object_fromEntries (entries ++ [(name, v)]) !! name = Some v.
Proof.
  unfold Object_fromEntries. rewrite foldl_app. cbn. apply lookup_insert_eq.
Qed.

(** ** Running the helpers *)

Lemma has_value_true x s : has_value x s = true <-> x = Some s /\ s <> "".
Proof.
  unfold has_value. rewrite andb_true_iff, bool_decide_eq_true.
  destruct s; cbn; split; intros [H1 H2]; split; congruence.
Qed.

Lemma require_string_present x s message env tr :
  has_value x s = true -> require_string x message env tr = (Returned s, tr).
Proof.
  intros [-> Hs]%has_value_true. destruct s; [congruence | reflexivity].
Qed.

Lemma require_string_absent x message env tr :
  x = None \/ x = Some "" ->
  require_string x message env tr = (Threw (Error message), tr).
Proof. intros [-> | ->]; reflexivity. Qed.

Lemma require_string_returned x message env tr s tr' :
  require_string x message env tr = (Returned s, tr') ->
  has_value x s = true /\ tr' = tr.
Proof.
  rewrite has_value_true. unfold require_string.
  destruct x as [[|c x]|]; cbn; intros H; inversion H; subst; auto.
Qed.

Lemma require_string_trace x message env tr :
  exists o, require_string x message env tr = (o, tr).
Proof. destruct x as [[|c x]|]; cbn; eauto. Qed.

Lemma createTenant_run orgName env tr :
  createTenant orgName env tr =
  match tenantReply (provider env) tr defaultClient "" (tenantConfig env orgName) with
  | Resolved r =>
      require_string (tenantIdOf r)
        "Couldn't create tenant. FusionAuth response was empty!"
        env (tr ++ [tenantCall env orgName])
  | Rejected e => (Threw e, tr ++ [tenantCall env orgName])
  end.
Proof.
  unfold createTenant, FusionAuth.createTenant, getenv, mbind at 1 2, Async_bind at 1 2.
  rewrite await_issue. unfold defaultClient. cbn beta. settle; reflexivity.
Qed.

Lemma createApiKey_run orgName tenantId env tr :
  createApiKey orgName tenantId env tr =
  match apiKeyReply (provider env) tr defaultClient "" (apiKeyRequest orgName tenantId) with
  | Resolved r =>
      require_string (apiKeyOf r)
        "FusionAuth API key create call was successful, but no API key was returned!"
        env (tr ++ [apiKeyCall orgName tenantId])
  | Rejected e => (Threw e, tr ++ [apiKeyCall orgName tenantId])
  end.
Proof.
  unfold createApiKey, FusionAuth.createAPIKey, mbind at 1, Async_bind at 1.
  rewrite await_issue. unfold defaultClient. cbn beta. settle; reflexivity.
Qed.

Lemma createApplication_run orgName lockedApiKey env tr :
  createApplication orgName lockedApiKey env tr =
  match applicationReply (provider env) tr
          (FusionAuthClient lockedApiKey (FUSIONAUTH_BASE_URL env)) ""
          (applicationRequest orgName) with
  | Resolved r =>
      require_string (applicationIdOf r)
        "An error occurred while creating the FusionAuth application."
        env (tr ++ [applicationCall env orgName lockedApiKey])
  | Rejected e => (Threw e, tr ++ [applicationCall env orgName lockedApiKey])
  end.
Proof.
  unfold createApplication, FusionAuth.createApplication, getenv,
    mbind at 1 2, Async_bind at 1 2.
  rewrite await_issue. unfold defaultClient. cbn beta. settle; reflexivity.
Qed.

(** Each helper issues exactly one call, whatever the provider answers. *)

Lemma createTenant_trace orgName env tr :
  exists o, createTenant orgName env tr = (o, tr ++ [tenantCall env orgName]).
Proof.
  rewrite createTenant_run. settle; eauto using require_string_trace.
Qed.

Lemma createApiKey_trace orgName t env tr :
  exists o, createApiKey orgName t env tr = (o, tr ++ [apiKeyCall orgName t]).
Proof.
  rewrite createApiKey_run. settle; eauto using require_string_trace.
Qed.

Lemma createApplication_trace orgName k env tr :
  exists o, createApplication orgName k env tr = (o, tr ++ [applicationCall env orgName k]).
Proof.
  rewrite createApplication_run. settle; eauto using require_string_trace.
Qed.

(** A helper returns exactly when its call resolved with the value. *)

Lemma createTenant_returns orgName env tr t tr' :
  createTenant orgName env tr = (Returned t, tr') <->
  tenantCreated env orgName tr t = true /\ tr' = tr ++ [tenantCall env orgName].
Proof.
  rewrite createTenant_run. unfold tenantCreated.
  destruct (tenantReply _ _ _ _ _) as [r|e].
  - split.
    + intros H. apply require_string_returned in H. tauto.
    + intros [H ->]. apply require_string_present, H.
  - split; [discriminate | intros [? _]; discriminate].
Qed.

Lemma createApiKey_returns orgName t env tr k tr' :
  createApiKey orgName t env tr = (Returned k, tr') <->
  apiKeyCreated env orgName tr t k = true /\ tr' = tr ++ [apiKeyCall orgName t].
Proof.
  rewrite createApiKey_run. unfold apiKeyCreated.
  destruct (apiKeyReply _ _ _ _ _) as [r|e].
  - split.
    + intros H. apply require_string_returned in H. tauto.
    + intros [H ->]. apply require_string_present, H.
  - split; [discriminate | intros [? _]; discriminate].
Qed.

Lemma createApplication_returns orgName k env tr a tr' :
  createApplication orgName k env tr = (Returned a, tr') <->
  applicationCreated env orgName tr k a = true /\
  tr' = tr ++ [applicationCall env orgName k].
Proof.
  rewrite createApplication_run. unfold applicationCreated.
  destruct (applicationReply _ _ _ _ _) as [r|e].
  - split.
    + intros H. apply require_string_returned in H. tauto.
    + intros [H ->]. apply require_string_present, H.
  - split; [discriminate | intros [? _]; discriminate].
Qed.

(** ** Running the action *)

Section Submission.

Variables (env : Environment) (request : Request).
Variable entries : list (string * FormDataEntryValue).
Variable tr : Trace.

Hypothesis Hform : formData request = Resolved entries.

Lemma action_rejected :
  truthy (Object_fromEntries entries !! "organization") = false ->
  action request env tr = (Threw (InvariantError "Organization name is required"), tr).
Proof.
  intros Hfalsy. unfold action, await, mbind, Async_bind, mret, Async_ret.
  rewrite Hform. cbn. rewrite Hfalsy. reflexivity.
Qed.

Lemma action_run :
  truthy (Object_fromEntries entries !! "organization") = true ->
  action request env tr =
  let user := Object_fromEntries entries in
  let orgName := user !! "organization" in
  match createTenant orgName env tr with
  | (Threw e, tr1) => (Threw e, tr1)
  | (Returned tenantId, tr1) =>
      match createApiKey orgName tenantId env tr1 with
      | (Threw e, tr2) => (Threw e, tr2)
      | (Returned lockedApiKey, tr2) =>
          match createApplication orgName lockedApiKey env tr2 with
          | (Threw e, tr3) => (Threw e, tr3)
          | (Returned applicationId, tr3) =>
              (afterRegistration env orgName
                 (registerReply (provider env) tr3 (getFusionAuthClient tenantId) ""
                    (registrationRequest user applicationId)),
               tr3 ++ [registerCall user tenantId applicationId])
          end
      end
  end.
Proof.
  intros Htruthy. unfold action, await, mbind, Async_bind, mret, Async_ret.
  rewrite Hform. cbn -[createTenant createApiKey createApplication].
  rewrite Htruthy. cbn -[createTenant createApiKey createApplication].
  destruct (createTenant _ env tr) as [[tenantId|e] tr1]; [|reflexivity].
  destruct (createApiKey _ tenantId env tr1) as [[lockedApiKey|e] tr2]; [|reflexivity].
  destruct (createApplication _ lockedApiKey env tr2) as [[applicationId|e] tr3];
    [|reflexivity].
  unfold try_catch, FusionAuth.register, issue, afterRegistration,
    Remix.redirect, Remix.json, getenv, throw, mbind, Async_bind, mret, Async_ret.
  cbn -[Remix.headerValueAccepted Remix.statusError].
  destruct (registerReply _ _ _ _ _) as [r|err];
    cbn -[Remix.headerValueAccepted Remix.statusError].
  - destruct (Remix.headerValueAccepted _ _); [reflexivity|].
    cbn -[Remix.statusError]. reflexivity.
  - destruct (Remix.statusError _ _); reflexivity.
Qed.

(** Once steps 1 to 3 have succeeded, the result is decided by the
    registration call alone. *)
Lemma action_provisioned t k a :
  truthy (Object_fromEntries entries !! "organization") = true ->
  provisioned env (Object_fromEntries entries !! "organization") tr t k a = true ->
  action request env tr =
  let user := Object_fromEntries entries in
  let orgName := user !! "organization" in
  (afterRegistration env orgName (registerSettles env user tr t k a),
   tr ++ fullRun env user t k a).
Proof.
  intros Htruthy Hp. unfold provisioned in Hp.
  apply andb_true_iff in Hp as [Hp H3]. apply andb_true_iff in Hp as [H1 H2].
  rewrite action_run by assumption. cbn zeta.
  rewrite (proj2 (createTenant_returns _ _ _ _ _) (conj H1 eq_refl)).
  rewrite (proj2 (createApiKey_returns _ _ _ _ _ _) (conj H2 eq_refl)).
  replace ((tr ++ [tenantCall env (Object_fromEntries entries !! "organization")])
             ++ [apiKeyCall (Object_fromEntries entries !! "organization") t])
    with (tr ++ [tenantCall env (Object_fromEntries entries !! "organization");
                 apiKeyCall (Object_fromEntries entries !! "organization") t])
    by (rewrite <- app_assoc; reflexivity).
  rewrite (proj2 (createApplication_returns _ _ _ _ _ _) (conj H3 eq_refl)).
  unfold registerSettles, fullRun, provisioningCalls. rewrite <- !app_assoc. reflexivity.
Qed.

(** The calls of a run are an initial segment of the four-step sequence. *)
Lemma action_trace :
  exists t k a calls,
    (action request env tr).2 = tr ++ calls /\
    calls `prefix_of` fullRun env (Object_fromEntries entries) t k a.
Proof.
  destruct (truthy (Object_fromEntries entries !! "organization")) eqn:Htruthy.
  2:{ rewrite action_rejected by assumption. exists "", "", "", [].
      split; [symmetry; apply app_nil_r | apply prefix_nil]. }
  rewrite action_run by assumption. cbn zeta. unfold fullRun, provisioningCalls.
  destruct (createTenant_trace (Object_fromEntries entries !! "organization") env tr)
    as [[t|e] ->].
  2:{ exists "", "", "", [tenantCall env (Object_fromEntries entries !! "organization")].
      split; [reflexivity | eexists; reflexivity]. }
  destruct (createApiKey_trace (Object_fromEntries entries !! "organization") t env
              (tr ++ [tenantCall env (Object_fromEntries entries !! "organization")]))
    as [[k|e] ->].
  2:{ exists t, "", "". eexists. cbn. rewrite <- app_assoc. split; [reflexivity|].
      eexists. reflexivity. }
  match goal with
  | |- context [createApplication ?o k env ?tr2] =>
      destruct (createApplication_trace o k env tr2) as [[a|e] ->]
  end.
  2:{ exists t, k, "". eexists. cbn. rewrite <- !app_assoc. split; [reflexivity|].
      eexists. reflexivity. }
  exists t, k, a. eexists.
  split; [| exists []; rewrite app_nil_r; reflexivity].
  cbn [snd]. rewrite <- !app_assoc. reflexivity.
Qed.

End Submission.

(** ** Validation *)

(** C2: a submission whose form data has no [organization] field, or an
    empty one, fails the invariant before any provider call: the action
    throws and the list of issued calls is unchanged, so none of
    createTenant, createAPIKey, createApplication and register is invoked. *)
Theorem missing_organization_issues_no_call env request entries tr :
  formData request = Resolved entries ->
  "organization" ∉ entries.*1 \/
    Object_fromEntries entries !! "organization" = Some (EntryString "") ->
  action request env tr =
    (Threw (InvariantError "Organization name is required"), tr).
Proof.
  intros Hform Hmissing. apply action_rejected with (entries := entries); [assumption|].
  destruct Hmissing as [Hno | Hempty].
  - rewrite fromEntries_missing by assumption. reflexivity.
  - rewrite Hempty. reflexivity.
Qed.

Lemma missing_organization_issues_no_call_witness :
  action anonymous_request happy_env [] =
    (Threw (InvariantError "Organization name is required"), []).
Proof.
  apply (missing_organization_issues_no_call happy_env anonymous_request anonymous_entries []).
  - reflexivity.
  - left. vm_compute. intros H.
    repeat (apply elem_of_cons in H as [H | H]; [discriminate H|]).
    apply elem_of_nil in H. exact H.
Defined.

(** ** Tenant creation *)

(** C4: when the createTenant call resolves with a response that has no
    tenant id (the whole response, its body, the tenant or the id is
    missing, or the id is empty), the action throws the error "Couldn't
    create tenant. FusionAuth response was empty!" and the only call issued
    is createTenant: no API key is requested and no later step runs. *)
Theorem tenant_without_id_aborts env request entries tr r :
  formData request = Resolved entries ->
  truthy (Object_fromEntries entries !! "organization") = true ->
  tenantReply (provider env) tr defaultClient ""
    (tenantConfig env (Object_fromEntries entries !! "organization")) = Resolved r ->
  tenantIdOf r = None \/ tenantIdOf r = Some "" ->
  action request env tr =
    (Threw (Error "Couldn't create tenant. FusionAuth response was empty!"),
     tr ++ [tenantCall env (Object_fromEntries entries !! "organization")]).
Proof.
  intros Hform Htruthy Hreply Hid.
  rewrite (action_run env request entries tr Hform Htruthy). cbn zeta.
  rewrite createTenant_run, Hreply.
  rewrite require_string_absent by assumption. reflexivity.
Qed.

Lemma tenant_without_id_aborts_witness :
  tenantIdOf (Some {| statusCode := Some 200%Z; response := None |}) = None /\
  action acme_request empty_tenant_env [] =
    (Threw (Error "Couldn't create tenant. FusionAuth response was empty!"),
     [tenantCall empty_tenant_env (Some (EntryString "acme-corp"))]).
Proof.
  split; [reflexivity|].
  apply (tenant_without_id_aborts empty_tenant_env acme_request acme_entries []
           (Some {| statusCode := Some 200%Z; response := None |})).
  - reflexivity.
  - reflexivity.
  - reflexivity.
  - left. reflexivity.
Defined.

(** C3: when createTenant resolves with a response containing the tenant id
    [t], the next call the action issues is createAPIKey on the default
    client, and its request has [tenantId = t]. *)
Theorem api_key_request_carries_tenant_id env request entries tr r t :
  formData request = Resolved entries ->
  truthy (Object_fromEntries entries !! "organization") = true ->
  tenantReply (provider env) tr defaultClient ""
    (tenantConfig env (Object_fromEntries entries !! "organization")) = Resolved r ->
  tenantIdOf r = Some t ->
  t <> "" ->
  exists keyRequest rest,
    (action request env tr).2 =
      tr ++ [ tenantCall env (Object_fromEntries entries !! "organization");
              {| via := defaultClient; operation := CreateAPIKey "" keyRequest |} ]
         ++ rest /\
    tenantId (apiKey keyRequest) = t.
Proof.
  intros Hform Htruthy Hreply Hid Ht.
  exists (apiKeyRequest (Object_fromEntries entries !! "organization") t).
  rewrite (action_run env request entries tr Hform Htruthy). cbn zeta.
  rewrite createTenant_run, Hreply.
  rewrite (require_string_present _ t) by (apply has_value_true; auto).
  match goal with
  | |- context [createApiKey ?o t env ?tr1] =>
      destruct (createApiKey_trace o t env tr1) as [[k|e] ->]
  end.
  2:{ exists []. cbn. rewrite <- app_assoc. auto. }
  match goal with
  | |- context [createApplication ?o k env ?tr2] =>
      destruct (createApplication_trace o k env tr2) as [[a|e] ->]
  end.
  2:{ eexists. cbn. rewrite <- !app_assoc. cbn. split; reflexivity. }
  eexists. split; [|reflexivity].
  cbn [snd]. rewrite <- !app_assoc. cbn. reflexivity.
Qed.

Lemma api_key_request_carries_tenant_id_witness :
  exists keyRequest rest,
    (action acme_request happy_env []).2 =
      [ tenantCall happy_env (Some (EntryString "acme-corp"));
        {| via := defaultClient; operation := CreateAPIKey "" keyRequest |} ] ++ rest /\
    tenantId (apiKey keyRequest) = "t1".
Proof.
  apply (api_key_request_carries_tenant_id happy_env acme_request acme_entries []
           (Some {| statusCode := Some 200%Z;
                    response := Some {| created_tenant := Some {| tenant_id := Some "t1" |} |} |})
           "t1").
  - reflexivity.
  - reflexivity.
  - reflexivity.
  - reflexivity.
  - discriminate.
Defined.

(** ** Registration and the result of the action *)

(** C1, as stated, does not hold, for two reasons.  When all four calls
    succeed for the organization "acme-corp" the action does redirect, but
    to "acme-corp.saasbp.io/signin", which is not an [https] URL.  And when
    they succeed for an organization name with a line feed in it, no
    redirect is returned at all: [redirect] refuses the target, and the
    handler answers with the JSON result. *)
Lemma redirect_is_neither_https_nor_certain :
  ~ (forall env request entries org tr t k a r,
        formData request = Resolved entries ->
        Object_fromEntries entries !! "organization" = Some (EntryString org) ->
        org <> "" ->
        provisioned env (Some (EntryString org)) tr t k a = true ->
        registerSettles env (Object_fromEntries entries) tr t k a = Resolved r ->
        exists url tr',
          action request env tr = (Returned (redirect url), tr') /\
          is_https_url url = true) /\
  ~ (forall env request entries org tr t k a r,
        formData request = Resolved entries ->
        Object_fromEntries entries !! "organization" = Some (EntryString org) ->
        org <> "" ->
        provisioned env (Some (EntryString org)) tr t k a = true ->
        registerSettles env (Object_fromEntries entries) tr t k a = Resolved r ->
        exists url tr',
          action request env tr = (Returned (redirect url), tr')).
Proof.
  split; intros Hclaim.
  - destruct (Hclaim happy_env acme_request acme_entries "acme-corp" [] "t1" "k1" "a1"
                (Some {| statusCode := Some 200%Z; response := Some {| token := None |} |}))
      as (url & tr' & Hrun & Hhttps);
      [reflexivity | reflexivity | discriminate | reflexivity | reflexivity |].
    vm_compute in Hrun. inversion Hrun; subst url. vm_compute in Hhttps. discriminate.
  - destruct (Hclaim happy_env two_line_request two_line_entries two_line_name []
                "t1" "k1" "a1"
                (Some {| statusCode := Some 200%Z; response := Some {| token := None |} |}))
      as (url & tr' & Hrun);
      [reflexivity | reflexivity | discriminate | reflexivity | reflexivity |].
    vm_compute in Hrun. discriminate.
Qed.

(** C1, amended: when all four provider calls succeed and [redirect]
    accepts the target, the action returns a redirect whose target is
    exactly the organization name followed by ".saasbp.io/signin", with
    nothing in front of it; when [redirect] refuses the target, the action
    returns the JSON result without message and status.  Either way the
    four calls have been issued in order. *)
Theorem redirect_after_registration env request entries org tr t k a r :
  formData request = Resolved entries ->
  Object_fromEntries entries !! "organization" = Some (EntryString org) ->
  org <> "" ->
  provisioned env (Some (EntryString org)) tr t k a = true ->
  registerSettles env (Object_fromEntries entries) tr t k a = Resolved r ->
  action request env tr =
    (if Remix.headerValueAccepted (nativeFetch env) (org +:+ ".saasbp.io/signin")
     then Returned (redirect (org +:+ ".saasbp.io/signin"))
     else Returned (json {| error := {| error_message := None |} |}
                         {| status := None |}),
     tr ++ fullRun env (Object_fromEntries entries) t k a).
Proof.
  intros Hform Horg Hne Hprov Hreg.
  assert (Htruthy : truthy (Object_fromEntries entries !! "organization") = true).
  { rewrite Horg. destruct org; [congruence | reflexivity]. }
  rewrite <- Horg in Hprov.
  rewrite (action_provisioned env request entries tr Hform t k a Htruthy Hprov).
  cbn zeta. rewrite Hreg, Horg. reflexivity.
Qed.

Lemma redirect_after_registration_witness :
  action acme_request happy_env [] =
    (Returned (redirect "acme-corp.saasbp.io/signin"),
     fullRun happy_env (Object_fromEntries acme_entries) "t1" "k1" "a1") /\
  action acme_request (polyfill happy_env) [] =
    (Returned (redirect "acme-corp.saasbp.io/signin"),
     fullRun (polyfill happy_env) (Object_fromEntries acme_entries) "t1" "k1" "a1") /\
  action two_line_request happy_env [] =
    (Returned (json {| error := {| error_message := None |} |} {| status := None |}),
     fullRun happy_env (Object_fromEntries two_line_entries) "t1" "k1" "a1").
Proof.
  split; [|split].
  - apply (redirect_after_registration happy_env acme_request acme_entries "acme-corp" []
             "t1" "k1" "a1"
             (Some {| statusCode := Some 200%Z; response := Some {| token := None |} |}));
      [reflexivity | reflexivity | discriminate | reflexivity | reflexivity].
  - apply (redirect_after_registration (polyfill happy_env) acme_request acme_entries
             "acme-corp" [] "t1" "k1" "a1"
             (Some {| statusCode := Some 200%Z; response := Some {| token := None |} |}));
      [reflexivity | reflexivity | discriminate | reflexivity | reflexivity].
  - apply (redirect_after_registration happy_env two_line_request two_line_entries
             two_line_name [] "t1" "k1" "a1"
             (Some {| statusCode := Some 200%Z; response := Some {| token := None |} |}));
      [reflexivity | reflexivity | discriminate | reflexivity | reflexivity].
Defined.

(** C5: when steps 1 to 3 succeed and the register call is rejected with
    statusCode 400 and response "email already exists", the action does not
    throw: it returns the JSON result with status 400 and body
    [{ error: { message: "email already exists" } }]. *)
Theorem duplicate_email_is_reported env request entries tr t k a :
  formData request = Resolved entries ->
  truthy (Object_fromEntries entries !! "organization") = true ->
  provisioned env (Object_fromEntries entries !! "organization") tr t k a = true ->
  registerSettles env (Object_fromEntries entries) tr t k a =
    Rejected (Rejection {| statusCode := Some 400%Z;
                           response := Some "email already exists" |}) ->
  action request env tr =
    (Returned (json {| error := {| error_message := Some "email already exists" |} |}
                    {| status := Some 400%Z |}),
     tr ++ fullRun env (Object_fromEntries entries) t k a).
Proof.
  intros Hform Htruthy Hprov Hreg.
  rewrite (action_provisioned env request entries tr Hform t k a Htruthy Hprov).
  cbn zeta. rewrite Hreg. unfold afterRegistration. cbn [thrown_statusCode statusCode].
  destruct (nativeFetch env); reflexivity.
Qed.

Lemma duplicate_email_is_reported_witness :
  action acme_request duplicate_email_env [] =
    (Returned (json {| error := {| error_message := Some "email already exists" |} |}
                    {| status := Some 400%Z |}),
     fullRun duplicate_email_env (Object_fromEntries acme_entries) "t1" "k1" "a1").
Proof.
  apply (duplicate_email_is_reported duplicate_email_env acme_request acme_entries []
           "t1" "k1" "a1").
  - reflexivity.
  - reflexivity.
  - reflexivity.
  - reflexivity.
Defined.

(** ** Error channels *)

(** C7, as stated, does not hold.  A JSON result does not only come from
    a failed register call: with an organization name that has a line feed
    in it, every call succeeds and the action still returns the JSON
    result, because the handler also catches the error [redirect] throws.
    And a failed register call is not always turned into a JSON result:
    rejected with status 304, on a standard [Response], the handler's
    [json] throws and the action ends in that exception. *)
Lemma json_result_without_register_failure :
  ~ (forall env request data init tr tr',
        action request env tr = (Returned (json data init), tr') ->
        exists tr3 c id payload e,
          registerReply (provider env) tr3 c id payload = Rejected e) /\
  ~ (forall env request entries tr t k a e,
        formData request = Resolved entries ->
        truthy (Object_fromEntries entries !! "organization") = true ->
        provisioned env (Object_fromEntries entries !! "organization") tr t k a = true ->
        registerSettles env (Object_fromEntries entries) tr t k a = Rejected e ->
        exists data init tr',
          action request env tr = (Returned (json data init), tr')).
Proof.
  split; intros Hclaim.
  - destruct (Hclaim happy_env two_line_request
                {| error := {| error_message := None |} |} {| status := None |} []
                (fullRun happy_env (Object_fromEntries two_line_entries) "t1" "k1" "a1"))
      as (tr3 & c & id & payload & e & Hreply); [reflexivity|].
    cbn in Hreply. discriminate.
  - destruct (Hclaim not_modified_env acme_request acme_entries [] "t1" "k1" "a1"
                not_modified)
      as (data & init & tr' & Hrun);
      [reflexivity | reflexivity | reflexivity | reflexivity |].
    vm_compute in Hrun. discriminate.
Qed.

(** C7, amended: an error thrown by createTenant, createApiKey or
    createApplication leaves the action as that same thrown value.  Errors
    raised inside the [try] block are caught: a rejection of the register
    call is turned into the JSON result made of its response and
    statusCode, unless [json] refuses that status, in which case the
    action throws the error of [json]; and when register succeeds but
    [redirect] refuses the target, its error is turned into the JSON result
    without message and status.  A JSON result arises in no other way. *)
Theorem error_channel_asymmetry env request entries tr :
  formData request = Resolved entries ->
  truthy (Object_fromEntries entries !! "organization") = true ->
  let user := Object_fromEntries entries in
  let orgName := user !! "organization" in
  let target := template orgName +:+ ".saasbp.io/signin" in
  (forall e tr1,
      createTenant orgName env tr = (Threw e, tr1) ->
      action request env tr = (Threw e, tr1)) /\
  (forall t tr1 e tr2,
      createTenant orgName env tr = (Returned t, tr1) ->
      createApiKey orgName t env tr1 = (Threw e, tr2) ->
      action request env tr = (Threw e, tr2)) /\
  (forall t tr1 k tr2 e tr3,
      createTenant orgName env tr = (Returned t, tr1) ->
      createApiKey orgName t env tr1 = (Returned k, tr2) ->
      createApplication orgName k env tr2 = (Threw e, tr3) ->
      action request env tr = (Threw e, tr3)) /\
  (forall t tr1 k tr2 a tr3 e,
      createTenant orgName env tr = (Returned t, tr1) ->
      createApiKey orgName t env tr1 = (Returned k, tr2) ->
      createApplication orgName k env tr2 = (Returned a, tr3) ->
      registerReply (provider env) tr3 (getFusionAuthClient t) ""
        (registrationRequest user a) = Rejected e ->
      action request env tr =
        (match Remix.statusError (nativeFetch env) (thrown_statusCode e) with
         | None =>
             Returned (json {| error := {| error_message := thrown_response e |} |}
                            {| status := thrown_statusCode e |})
         | Some name => Threw (NativeError name)
         end,
         tr3 ++ [registerCall user t a])) /\
  (forall t tr1 k tr2 a tr3 r,
      createTenant orgName env tr = (Returned t, tr1) ->
      createApiKey orgName t env tr1 = (Returned k, tr2) ->
      createApplication orgName k env tr2 = (Returned a, tr3) ->
      registerReply (provider env) tr3 (getFusionAuthClient t) ""
        (registrationRequest user a) = Resolved r ->
      action request env tr =
        (if Remix.headerValueAccepted (nativeFetch env) target
         then Returned (redirect target)
         else Returned (json {| error := {| error_message := None |} |}
                             {| status := None |}),
         tr3 ++ [registerCall user t a])) /\
  (forall data init tr',
      action request env tr = (Returned (json data init), tr') ->
      exists t tr1 k tr2 a tr3,
        createTenant orgName env tr = (Returned t, tr1) /\
        createApiKey orgName t env tr1 = (Returned k, tr2) /\
        createApplication orgName k env tr2 = (Returned a, tr3) /\
        tr' = tr3 ++ [registerCall user t a] /\
        ((exists e,
             registerReply (provider env) tr3 (getFusionAuthClient t) ""
               (registrationRequest user a) = Rejected e /\
             Remix.statusError (nativeFetch env) (thrown_statusCode e) = None /\
             data = {| error := {| error_message := thrown_response e |} |} /\
             init = {| status := thrown_statusCode e |}) \/
         (exists r,
             registerReply (provider env) tr3 (getFusionAuthClient t) ""
               (registrationRequest user a) = Resolved r /\
             Remix.headerValueAccepted (nativeFetch env) target = false /\
             data = {| error := {| error_message := None |} |} /\
             init = {| status := None |}))).
Proof.
  intros Hform Htruthy user orgName target. subst user orgName target.
  rewrite (action_run env request entries tr Hform Htruthy). cbn zeta.
  repeat split.
  - intros e tr1 ->. reflexivity.
  - intros t tr1 e tr2 -> ->. reflexivity.
  - intros t tr1 k tr2 e tr3 -> -> ->. reflexivity.
  - intros t tr1 k tr2 a tr3 e -> -> -> ->. reflexivity.
  - intros t tr1 k tr2 a tr3 r -> -> -> ->. reflexivity.
  - intros data init tr'.
    destruct (createTenant _ env tr) as [[t|e1] tr1] eqn:H1; [|discriminate].
    destruct (createApiKey _ t env tr1) as [[k|e2] tr2] eqn:H2; [|discriminate].
    destruct (createApplication _ k env tr2) as [[a|e3] tr3] eqn:H3; [|discriminate].
    intros H. exists t, tr1, k, tr2, a, tr3.
    split; [reflexivity|]. split; [assumption|]. split; [assumption|].
    unfold afterRegistration in H.
    destruct (registerReply _ _ _ _ _) as [r|e] eqn:Hreg.
    + destruct (Remix.headerValueAccepted _ _) eqn:Hok; inversion H; subst.
      split; [reflexivity|]. right. exists r. auto.
    + destruct (Remix.statusError _ _) eqn:Hok; inversion H; subst.
      split; [reflexivity|]. left. exists e. auto.
Qed.

Lemma error_channel_asymmetry_witness :
  action acme_request empty_tenant_env [] =
    (Threw (Error "Couldn't create tenant. FusionAuth response was empty!"),
     [tenantCall empty_tenant_env (Some (EntryString "acme-corp"))]) /\
  action acme_request duplicate_email_env [] =
    (Returned (json {| error := {| error_message := Some "email already exists" |} |}
                    {| status := Some 400%Z |}),
     fullRun duplicate_email_env (Object_fromEntries acme_entries) "t1" "k1" "a1") /\
  action acme_request not_modified_env [] =
    (Threw (NativeError "TypeError"),
     fullRun not_modified_env (Object_fromEntries acme_entries) "t1" "k1" "a1") /\
  action two_line_request happy_env [] =
    (Returned (json {| error := {| error_message := None |} |} {| status := None |}),
     fullRun happy_env (Object_fromEntries two_line_entries) "t1" "k1" "a1").
Proof.
  split; [|split; [|split]].
  - destruct (error_channel_asymmetry empty_tenant_env acme_request acme_entries []
                eq_refl eq_refl) as (Hstep1 & _).
    apply Hstep1. reflexivity.
  - destruct (error_channel_asymmetry duplicate_email_env acme_request acme_entries []
                eq_refl eq_refl) as (_ & _ & _ & Hrejected & _).
    apply (Hrejected "t1"
             [tenantCall duplicate_email_env (Some (EntryString "acme-corp"))]
             "k1"
             [tenantCall duplicate_email_env (Some (EntryString "acme-corp"));
              apiKeyCall (Some (EntryString "acme-corp")) "t1"]
             "a1"
             (provisioningCalls duplicate_email_env (Some (EntryString "acme-corp")) "t1" "k1")
             duplicate_email);
      reflexivity.
  - destruct (error_channel_asymmetry not_modified_env acme_request acme_entries []
                eq_refl eq_refl) as (_ & _ & _ & Hrejected & _).
    apply (Hrejected "t1"
             [tenantCall not_modified_env (Some (EntryString "acme-corp"))]
             "k1"
             [tenantCall not_modified_env (Some (EntryString "acme-corp"));
              apiKeyCall (Some (EntryString "acme-corp")) "t1"]
             "a1"
             (provisioningCalls not_modified_env (Some (EntryString "acme-corp")) "t1" "k1")
             not_modified);
      reflexivity.
  - destruct (error_channel_asymmetry happy_env two_line_request two_line_entries []
                eq_refl eq_refl) as (_ & _ & _ & _ & Hresolved & _).
    apply (Hresolved "t1"
             [tenantCall happy_env (Some (EntryString two_line_name))]
             "k1"
             [tenantCall happy_env (Some (EntryString two_line_name));
              apiKeyCall (Some (EntryString two_line_name)) "t1"]
             "a1"
             (provisioningCalls happy_env (Some (EntryString two_line_name)) "t1" "k1")
             (Some {| statusCode := Some 200%Z; response := Some {| token := None |} |}));
      reflexivity.
Defined.

(** ** Which client issues which call *)

(** A run that ends in a redirect went through all four steps. *)
Lemma action_redirected env request tr url tr' :
  action request env tr = (Returned (redirect url), tr') ->
  exists entries t k a,
    formData request = Resolved entries /\
    truthy (Object_fromEntries entries !! "organization") = true /\
    provisioned env (Object_fromEntries entries !! "organization") tr t k a = true /\
    tr' = tr ++ fullRun env (Object_fromEntries entries) t k a.
Proof.
  intros Hrun.
  destruct (formData request) as [entries|e] eqn:Hform.
  2:{ unfold action, await, mbind, Async_bind, mret, Async_ret in Hrun.
      rewrite Hform in Hrun. discriminate. }
  destruct (truthy (Object_fromEntries entries !! "organization")) eqn:Htruthy.
  2:{ rewrite (action_rejected env request entries tr Hform Htruthy) in Hrun.
      discriminate. }
  rewrite (action_run env request entries tr Hform Htruthy) in Hrun. cbn zeta in Hrun.
  destruct (createTenant _ env tr) as [[t|e1] tr1] eqn:H1; [|discriminate].
  destruct (createApiKey _ t env tr1) as [[k|e2] tr2] eqn:H2; [|discriminate].
  destruct (createApplication _ k env tr2) as [[a|e3] tr3] eqn:H3; [|discriminate].
  apply createTenant_returns in H1 as [H1 ->].
  apply createApiKey_returns in H2 as [H2 ->].
  apply createApplication_returns in H3 as [H3 ->].
  inversion Hrun; subst.
  exists entries, t, k, a.
  split; [reflexivity|]. split; [assumption|]. split.
  - unfold provisioned. rewrite H1. cbn.
    rewrite <- app_assoc in H3. cbn in H3. rewrite H2, H3. reflexivity.
  - unfold fullRun, provisioningCalls. rewrite <- !app_assoc. reflexivity.
Qed.

(** C8: in every run that ends in the redirect, the createApplication call
    is issued on a client constructed from the API key that step 2 obtained
    for the new tenant, which is not the default client; the register call
    is issued on the client for the tenant id obtained in step 1, which is
    not the client built from the key. *)
Theorem clients_of_a_successful_run env request tr url tr' :
  action request env tr = (Returned (redirect url), tr') ->
  exists entries t k a,
    formData request = Resolved entries /\
    let user := Object_fromEntries entries in
    let orgName := user !! "organization" in
    let keyClient := FusionAuthClient k (FUSIONAUTH_BASE_URL env) in
    tenantCreated env orgName tr t = true /\
    apiKeyCreated env orgName (tr ++ [tenantCall env orgName]) t k = true /\
    tr' = tr ++ [ tenantCall env orgName;
                  {| via := defaultClient;
                     operation := CreateAPIKey "" (apiKeyRequest orgName t) |};
                  {| via := keyClient;
                     operation := CreateApplication "" (applicationRequest orgName) |};
                  {| via := getFusionAuthClient t;
                     operation := RegisterUser "" (registrationRequest user a) |} ] /\
    tenantId (apiKey (apiKeyRequest orgName t)) = t /\
    keyClient <> defaultClient /\
    getFusionAuthClient t <> keyClient.
Proof.
  intros Hrun.
  apply action_redirected in Hrun as (entries & t & k & a & Hform & _ & Hprov & ->).
  exists entries, t, k, a. split; [assumption|]. cbn zeta.
  unfold provisioned in Hprov.
  apply andb_true_iff in Hprov as [Hprov _]. apply andb_true_iff in Hprov as [H1 H2].
  repeat split; try assumption; discriminate.
Qed.

Lemma clients_of_a_successful_run_witness :
  exists entries t k a,
    formData acme_request = Resolved entries /\
    let user := Object_fromEntries entries in
    let orgName := user !! "organization" in
    let keyClient := FusionAuthClient k (FUSIONAUTH_BASE_URL happy_env) in
    tenantCreated happy_env orgName [] t = true /\
    apiKeyCreated happy_env orgName ([] ++ [tenantCall happy_env orgName]) t k = true /\
    fullRun happy_env (Object_fromEntries acme_entries) "t1" "k1" "a1" =
      [] ++ [ tenantCall happy_env orgName;
              {| via := defaultClient;
                 operation := CreateAPIKey "" (apiKeyRequest orgName t) |};
              {| via := keyClient;
                 operation := CreateApplication "" (applicationRequest orgName) |};
              {| via := getFusionAuthClient t;
                 operation := RegisterUser "" (registrationRequest user a) |} ] /\
    tenantId (apiKey (apiKeyRequest orgName t)) = t /\
    keyClient <> defaultClient /\
    getFusionAuthClient t <> keyClient.
Proof.
  apply (clients_of_a_successful_run happy_env acme_request []
           "acme-corp.saasbp.io/signin"
           (fullRun happy_env (Object_fromEntries acme_entries) "t1" "k1" "a1")).
  reflexivity.
Defined.

(** ** The application request *)

Lemma action_without_form env request tr e :
  formData request = Rejected e -> action request env tr = (Threw e, tr).
Proof.
  intros Hform. unfold action, await, mbind, Async_bind, mret, Async_ret.
  rewrite Hform. reflexivity.
Qed.

(** Every createApplication call of a run is the one built by
    [createApplication] from the submitted organization. *)
Lemma action_application_call env request entries c id req :
  formData request = Resolved entries ->
  {| via := c; operation := CreateApplication id req |} ∈ (action request env []).2 ->
  id = "" /\
  req = applicationRequest (Object_fromEntries entries !! "organization") /\
  exists k, c = FusionAuthClient k (FUSIONAUTH_BASE_URL env).
Proof.
  intros Hform Hin.
  destruct (action_trace env request entries [] Hform) as (t & k & a & calls & Htr & Hpre).
  rewrite Htr in Hin. cbn in Hin.
  destruct Hpre as [rest Hfull].
  assert (Hall : {| via := c; operation := CreateApplication id req |}
                   ∈ fullRun env (Object_fromEntries entries) t k a).
  { rewrite Hfull. apply elem_of_app. left. exact Hin. }
  unfold fullRun, provisioningCalls in Hall. cbn in Hall.
  repeat (apply elem_of_cons in Hall as [Hall | Hall]; [try discriminate Hall|]).
  - inversion Hall; subst. eauto.
  - apply elem_of_nil in Hall. contradiction.
Qed.

Lemma action_application_request env request c id req :
  {| via := c; operation := CreateApplication id req |} ∈ (action request env []).2 ->
  exists orgName, req = applicationRequest orgName.
Proof.
  intros Hin. destruct (formData request) as [entries|e] eqn:Hform.
  - destruct (action_application_call env request entries c id req Hform Hin)
      as (_ & -> & _). eauto.
  - rewrite (action_without_form env request [] e Hform) in Hin.
    apply elem_of_nil in Hin. contradiction.
Qed.

(** C6: for every organization name, [createApplication] issues one call
    whose application is named "<organizationName> App" and whose role list
    is, in order, [admin] with isDefault = false and [member] with
    isDefault = true; and every createApplication call of a run of the
    action is of that form. *)
Theorem application_name_and_roles org :
  (forall lockedApiKey env tr, exists outcome req,
      createApplication (Some (EntryString org)) lockedApiKey env tr =
        (outcome,
         tr ++ [ {| via := FusionAuthClient lockedApiKey (FUSIONAUTH_BASE_URL env);
                    operation := CreateApplication "" req |} ]) /\
      application_name (application req) = org +:+ " App" /\
      (fun r => (role_name r, isDefault r)) <$> roles (application req) =
        [ ("admin", false); ("member", true) ]) /\
  (forall env request entries c id req,
      formData request = Resolved entries ->
      Object_fromEntries entries !! "organization" = Some (EntryString org) ->
      {| via := c; operation := CreateApplication id req |} ∈ (action request env []).2 ->
      application_name (application req) = org +:+ " App" /\
      (fun r => (role_name r, isDefault r)) <$> roles (application req) =
        [ ("admin", false); ("member", true) ]).
Proof.
  split.
  - intros k env tr.
    destruct (createApplication_trace (Some (EntryString org)) k env tr) as [o Ho].
    exists o, (applicationRequest (Some (EntryString org))).
    split; [exact Ho|]. split; reflexivity.
  - intros env request entries c id req Hform Horg Hin.
    destruct (action_application_call env request entries c id req Hform Hin)
      as (_ & -> & _).
    rewrite Horg. split; reflexivity.
Qed.

Lemma application_name_and_roles_witness :
  applicationCall happy_env (Some (EntryString "acme-corp")) "k1"
    ∈ (action acme_request happy_env []).2 /\
  application_name (application (applicationRequest (Some (EntryString "acme-corp")))) =
    "acme-corp App" /\
  (fun r => (role_name r, isDefault r))
    <$> roles (application (applicationRequest (Some (EntryString "acme-corp")))) =
    [ ("admin", false); ("member", true) ].
Proof.
  assert (Hin : applicationCall happy_env (Some (EntryString "acme-corp")) "k1"
                  ∈ (action acme_request happy_env []).2).
  { apply list_elem_of_lookup. exists 2%nat. reflexivity. }
  split; [exact Hin|].
  exact (proj2 (application_name_and_roles "acme-corp")
           happy_env acme_request acme_entries _ _ _ eq_refl eq_refl Hin).
Defined.

(** C9: every createApplication request carries, next to the application
    with its two roles, a top-level [role] field holding the admin role,
    which is the first element of [configuredRoles]; this is so for every
    organization value, for the helper and for every run of the action. *)
Theorem application_request_role :
  configuredRoles !! 0%nat = Some adminRole /\
  (forall orgName lockedApiKey env tr, exists outcome req,
      createApplication orgName lockedApiKey env tr =
        (outcome,
         tr ++ [ {| via := FusionAuthClient lockedApiKey (FUSIONAUTH_BASE_URL env);
                    operation := CreateApplication "" req |} ]) /\
      role req = Some adminRole /\
      length (roles (application req)) = 2%nat) /\
  (forall env request c id req,
      {| via := c; operation := CreateApplication id req |} ∈ (action request env []).2 ->
      role req = Some adminRole /\
      length (roles (application req)) = 2%nat).
Proof.
  split; [reflexivity|]. split.
  - intros orgName k env tr.
    destruct (createApplication_trace orgName k env tr) as [o Ho].
    exists o, (applicationRequest orgName). split; [exact Ho|]. split; reflexivity.
  - intros env request c id req Hin.
    destruct (action_application_request env request c id req Hin) as [orgName ->].
    split; reflexivity.
Qed.

Lemma application_request_role_witness :
  applicationCall happy_env (Some (EntryString "acme-corp")) "k1"
    ∈ (action acme_request happy_env []).2 /\
  role (applicationRequest (Some (EntryString "acme-corp"))) = Some adminRole /\
  length (roles (application (applicationRequest (Some (EntryString "acme-corp"))))) = 2%nat.
Proof.
  assert (Hin : applicationCall happy_env (Some (EntryString "acme-corp")) "k1"
                  ∈ (action acme_request happy_env []).2).
  { apply list_elem_of_lookup. exists 2%nat. reflexivity. }
  split; [exact Hin|].
  exact (proj2 (proj2 application_request_role) happy_env acme_request _ _ _ Hin).
Defined.

(** C10: every application created by step 3 has
    [loginConfiguration.generateRefreshTokens = true], for every
    organization value: in the call [createApplication] issues, and in every
    createApplication call of a run of the action. *)
Theorem application_generates_refresh_tokens :
  (forall orgName lockedApiKey env tr, exists outcome req,
      createApplication orgName lockedApiKey env tr =
        (outcome,
         tr ++ [ {| via := FusionAuthClient lockedApiKey (FUSIONAUTH_BASE_URL env);
                    operation := CreateApplication "" req |} ]) /\
      generateRefreshTokens (loginConfiguration (application req)) = true) /\
  (forall env request c id req,
      {| via := c; operation := CreateApplication id req |} ∈ (action request env []).2 ->
      generateRefreshTokens (loginConfiguration (application req)) = true).
Proof.
  split.
  - intros orgName k env tr.
    destruct (createApplication_trace orgName k env tr) as [o Ho].
    exists o, (applicationRequest orgName). split; [exact Ho | reflexivity].
  - intros env request c id req Hin.
    destruct (action_application_request env request c id req Hin) as [orgName ->].
    reflexivity.
Qed.

Lemma application_generates_refresh_tokens_witness :
  applicationCall happy_env (Some (EntryString "acme-corp")) "k1"
    ∈ (action acme_request happy_env []).2 /\
  generateRefreshTokens
    (loginConfiguration
       (application (applicationRequest (Some (EntryString "acme-corp"))))) = true.
Proof.
  assert (Hin : applicationCall happy_env (Some (EntryString "acme-corp")) "k1"
                  ∈ (action acme_request happy_env []).2).
  { apply list_elem_of_lookup. exists 2%nat. reflexivity. }
  split; [exact Hin|].
  exact (proj2 application_generates_refresh_tokens happy_env acme_request _ _ _ Hin).
Defined.

(** ** The organization slug of the sign-up form *)

Lemma slug_char_is_not_space c :
  SignUp.is_slug_char c = true -> SignUp.is_space c = false.
Proof.
  intros Hc. apply not_true_is_false. intros Hs.
  unfold SignUp.is_slug_char, SignUp.is_space, SignUp.between in *.
  repeat rewrite ?orb_true_iff, ?andb_true_iff, ?N.leb_le, ?N.eqb_eq in Hc.
  repeat rewrite ?orb_true_iff, ?andb_true_iff, ?N.leb_le, ?N.eqb_eq in Hs.
  lia.
Qed.

Lemma replace_spaces_without_space in_run value :
  Forall (fun c => SignUp.is_space c = false) value ->
  SignUp.replace_spaces in_run value = value.
Proof.
  intros Hall. revert in_run.
  induction Hall as [|c rest Hc _ IH]; intros in_run; cbn; [reflexivity|].
  rewrite Hc, IH. reflexivity.
Qed.

Lemma remove_others_clean value :
  Forall (fun c => SignUp.is_slug_char c = true) value ->
  SignUp.remove_others value = value.
Proof.
  unfold SignUp.remove_others.
  induction 1 as [|c rest Hc _ IH]; cbn; [reflexivity|].
  rewrite Hc. f_equal. exact IH.
Qed.

Lemma remove_others_alphabet value :
  Forall (fun c => SignUp.is_slug_char c = true) (SignUp.remove_others value).
Proof.
  unfold SignUp.remove_others.
  induction value as [|c rest IH]; cbn; [constructor|].
  destruct (SignUp.is_slug_char c) eqn:Hc; [constructor; assumption | exact IH].
Qed.

Lemma remove_others_length value :
  length (SignUp.remove_others value) <= length value.
Proof.
  unfold SignUp.remove_others.
  induction value as [|c rest IH]; cbn; [lia|].
  destruct (SignUp.is_slug_char c); cbn; lia.
Qed.

Lemma replace_spaces_length in_run value :
  length (SignUp.replace_spaces in_run value) <= length value.
Proof.
  revert in_run. induction value as [|c rest IH]; intros in_run; cbn; [lia|].
  destruct (SignUp.is_space c); [destruct in_run|]; cbn;
    first [ specialize (IH true); lia | specialize (IH false); lia ].
Qed.

(** Whether a run of white space is open after [value], when it was
    [in_run] before. *)
Lemma replace_spaces_app in_run a b :
  SignUp.replace_spaces in_run (a ++ b) =
  SignUp.replace_spaces in_run a
    ++ SignUp.replace_spaces (from_option SignUp.is_space in_run (last a)) b.
Proof.
  revert in_run. induction a as [|c a IH]; intros in_run; [reflexivity|].
  assert (Hlast : forall st, from_option SignUp.is_space st (last (c :: a)) =
                             from_option SignUp.is_space (SignUp.is_space c) (last a)).
  { intros st. destruct a as [|d a]; [reflexivity|]. rewrite last_cons_cons.
    destruct (last (d :: a)) eqn:Hl; [reflexivity|].
    apply last_None in Hl. discriminate. }
  rewrite Hlast. cbn [app SignUp.replace_spaces].
  destruct (SignUp.is_space c); [destruct in_run|]; rewrite IH; reflexivity.
Qed.

Lemma replace_spaces_start in_run b :
  (forall d, head b = Some d -> SignUp.is_space d = false) ->
  SignUp.replace_spaces in_run b = SignUp.replace_spaces false b.
Proof.
  destruct b as [|d b]; [reflexivity|]. intros Hd. cbn.
  rewrite (Hd d eq_refl). reflexivity.
Qed.

Lemma slug_of_spaces ws :
  ws <> [] -> Forall (fun c => SignUp.is_space c = true) ws ->
  SignUp.slug ws = [SignUp.hyphen].
Proof.
  intros Hne Hall. destruct Hall as [|c ws Hc Hall]; [congruence|]. clear Hne.
  unfold SignUp.slug. cbn. rewrite Hc. cbn. f_equal.
  induction Hall as [|d ws Hd _ IH]; cbn; [reflexivity|].
  rewrite Hd. exact IH.
Qed.

Lemma clean_last_not_space a :
  Forall (fun c => SignUp.is_slug_char c = true) a ->
  forall c, last a = Some c -> SignUp.is_space c = false.
Proof.
  intros Hall c Hc. apply slug_char_is_not_space.
  rewrite Forall_forall in Hall. apply Hall.
  apply last_Some in Hc as [a' ->]. apply elem_of_app. right. apply list_elem_of_singleton.
  reflexivity.
Qed.

Lemma clean_head_not_space b :
  Forall (fun c => SignUp.is_slug_char c = true) b ->
  forall d, head b = Some d -> SignUp.is_space d = false.
Proof.
  intros Hall d Hd. apply slug_char_is_not_space.
  destruct Hall as [|c b Hc _]; [discriminate|]. cbn in Hd. congruence.
Qed.

Lemma slug_alphabet value :
  Forall (fun c => SignUp.is_slug_char c = true) (SignUp.slug value).
Proof. unfold SignUp.slug. apply remove_others_alphabet. Qed.

Lemma slug_clean value :
  Forall (fun c => SignUp.is_slug_char c = true) value -> SignUp.slug value = value.
Proof.
  intros Hv. unfold SignUp.slug.
  rewrite replace_spaces_without_space.
  - apply remove_others_clean, Hv.
  - eapply Forall_impl; [exact Hv|]. intros c. apply slug_char_is_not_space.
Qed.

Lemma slug_concat a b :
  (forall c d, last a = Some c -> head b = Some d ->
               SignUp.is_space c = false \/ SignUp.is_space d = false) ->
  SignUp.slug (a ++ b) = SignUp.slug a ++ SignUp.slug b.
Proof.
  intros Hjoin. unfold SignUp.slug, SignUp.remove_others.
  rewrite replace_spaces_app, List.filter_app. f_equal. f_equal.
  destruct (last a) as [c|] eqn:Hlast; cbn; [|reflexivity].
  destruct (SignUp.is_space c) eqn:Hc; [|reflexivity].
  apply replace_spaces_start. intros d Hd.
  destruct (Hjoin c d eq_refl Hd) as [H | H]; congruence.
Qed.

Lemma afterChanges_last values value :
  SignUp.afterChanges (values ++ [value]) = SignUp.slug value.
Proof. unfold SignUp.afterChanges. rewrite foldl_app. reflexivity. Qed.

(** X1: whatever is typed, the slug consists only of the characters
    [a-z], [A-Z], [0-9] and [-], and it is never longer than the input. *)
Theorem slug_alphabet_and_length value :
  Forall (fun c => SignUp.is_slug_char c = true) (SignUp.slug value) /\
  length (SignUp.slug value) <= length value.
Proof.
  split; [apply slug_alphabet|].
  unfold SignUp.slug.
  etransitivity; [apply remove_others_length | apply replace_spaces_length].
Qed.

(** X2: the values the slug leaves unchanged are exactly those made of
    allowed characters only; hence computing the slug twice gives the same
    result as computing it once. *)
Theorem slug_fixed_points value :
  (SignUp.slug value = value <-> Forall (fun c => SignUp.is_slug_char c = true) value) /\
  SignUp.slug (SignUp.slug value) = SignUp.slug value.
Proof.
  split.
  - split; [|apply slug_clean].
    intros <-. apply slug_alphabet.
  - apply slug_clean, slug_alphabet.
Qed.

(** X3: the slug of a concatenation is the concatenation of the slugs
    exactly when the two parts do not meet in white space: if the first
    part ends with white space and the second starts with white space, the
    two belong to one run and give one hyphen instead of two. *)
Theorem slug_app a b :
  SignUp.slug (a ++ b) = SignUp.slug a ++ SignUp.slug b <->
  (forall c d, last a = Some c -> head b = Some d ->
               SignUp.is_space c = false \/ SignUp.is_space d = false).
Proof.
  split; [|apply slug_concat].
  intros Heq c d Hc Hd.
  destruct (SignUp.is_space c) eqn:Hsc; [|auto].
  destruct (SignUp.is_space d) eqn:Hsd; [|auto].
  exfalso. apply (f_equal length) in Heq. revert Heq.
  unfold SignUp.slug, SignUp.remove_others.
  rewrite replace_spaces_app, Hc. cbn [from_option]. rewrite Hsc.
  destruct b as [|d' b]; [discriminate|]. cbn in Hd. inversion Hd; subst d'.
  cbn [SignUp.replace_spaces]. rewrite Hsd.
  rewrite List.filter_app, !length_app. cbn. lia.
Qed.

Lemma slug_app_witness :
  SignUp.slug (SignUp.units "acme " ++ SignUp.units "corp") =
  SignUp.slug (SignUp.units "acme ") ++ SignUp.slug (SignUp.units "corp").
Proof.
  apply (proj2 (slug_app (SignUp.units "acme ") (SignUp.units "corp"))).
  intros c d _ Hd. right. cbn in Hd. inversion Hd. reflexivity.
Defined.

(** X4: a run of one or more white-space characters between two parts that
    do not touch it with white space of their own becomes exactly one
    hyphen between the slugs of the parts. *)
Theorem slug_collapses_a_run a ws b :
  ws <> [] ->
  Forall (fun c => SignUp.is_space c = true) ws ->
  (forall c, last a = Some c -> SignUp.is_space c = false) ->
  (forall d, head b = Some d -> SignUp.is_space d = false) ->
  SignUp.slug (a ++ ws ++ b) = SignUp.slug a ++ [SignUp.hyphen] ++ SignUp.slug b.
Proof.
  intros Hne Hws Ha Hb.
  rewrite slug_concat.
  - f_equal. rewrite slug_concat.
    + rewrite slug_of_spaces by assumption. reflexivity.
    + intros c d _ Hd. right. apply Hb, Hd.
  - intros c d Hc _. left. apply Ha, Hc.
Qed.

Lemma slug_collapses_a_run_witness :
  SignUp.slug (SignUp.units "acme" ++ [0x20; 0x09; 0xA0]%N ++ SignUp.units "corp") =
  SignUp.slug (SignUp.units "acme") ++ [SignUp.hyphen] ++ SignUp.slug (SignUp.units "corp").
Proof.
  apply (slug_collapses_a_run (SignUp.units "acme") [0x20; 0x09; 0xA0]%N
           (SignUp.units "corp")).
  - discriminate.
  - repeat constructor.
  - intros c Hc. cbn in Hc. inversion Hc. reflexivity.
  - intros d Hd. cbn in Hd. inversion Hd. reflexivity.
Defined.

(** X5: inserting one character anywhere into a value made of allowed
    characters: an allowed character is kept, a white-space character
    becomes a hyphen, and any other character is dropped; the rest of the
    value is unchanged. *)
Theorem slug_of_an_insertion a c b :
  Forall (fun x => SignUp.is_slug_char x = true) a ->
  Forall (fun x => SignUp.is_slug_char x = true) b ->
  SignUp.slug (a ++ c :: b) =
  a ++ (if SignUp.is_space c then [SignUp.hyphen]
        else if SignUp.is_slug_char c then [c] else []) ++ b.
Proof.
  intros Ha Hb.
  rewrite slug_concat.
  2:{ intros x d Hx _. left. exact (clean_last_not_space a Ha x Hx). }
  rewrite (slug_clean a Ha). f_equal.
  change (c :: b) with ([c] ++ b). rewrite slug_concat.
  2:{ intros x d _ Hd. right. exact (clean_head_not_space b Hb d Hd). }
  rewrite (slug_clean b Hb). f_equal.
  unfold SignUp.slug. cbn.
  destruct (SignUp.is_space c); [reflexivity|]. cbn.
  destruct (SignUp.is_slug_char c); reflexivity.
Qed.

Lemma slug_of_an_insertion_witness :
  SignUp.slug (SignUp.units "acme" ++ 0x20%N :: SignUp.units "corp") =
  SignUp.units "acme" ++ [SignUp.hyphen] ++ SignUp.units "corp".
Proof.
  apply (slug_of_an_insertion (SignUp.units "acme") 0x20%N (SignUp.units "corp"));
    repeat constructor.
Defined.

(** X6: after any sequence of change events the organization field holds
    the slug of the last value entered, whatever came before, so it always
    consists of allowed characters only; the domain hint is empty exactly
    when the field is empty. *)
Theorem organization_field_invariant values :
  Forall (fun c => SignUp.is_slug_char c = true) (SignUp.afterChanges values) /\
  (forall value, SignUp.afterChanges (values ++ [value]) = SignUp.slug value) /\
  (SignUp.domainHint (SignUp.afterChanges values) = [] <->
   SignUp.afterChanges values = []).
Proof.
  split; [|split; [apply afterChanges_last|]].
  - destruct values as [|v values _] using rev_ind.
    + constructor.
    + rewrite afterChanges_last. apply slug_alphabet.
  - destruct (SignUp.afterChanges values); cbn; split; congruence.
Qed.

(** ** More on the runs of the action *)

Lemma fromEntries_fold_other name (entries : list (string * FormDataEntryValue))
    (obj : gmap string FormDataEntryValue) :
  name ∉ entries.*1 ->
  foldl (fun obj kv => <[kv.1 := kv.2]> obj) obj entries !! name = obj !! name.
Proof.
  revert obj. induction entries as [|[k v] entries IH]; intros obj Hn; [reflexivity|].
  cbn in *. apply not_elem_of_cons in Hn as [Hk Hn].
  rewrite IH by assumption. apply lookup_insert_ne. congruence.
Qed.

Lemma fromEntries_last_occurrence name v (before after : list (string * FormDataEntryValue)) :
  name ∉ after.*1 ->
  Object_fromEntries (before ++ (name, v) :: after) !! name = Some v.
Proof.
  intros Hn. unfold Object_fromEntries. rewrite foldl_app. cbn.
  rewrite fromEntries_fold_other by assumption. apply lookup_insert_eq.
Qed.

(** A validated submission either stops with an exception after one, two or
    three calls, or issues all four and ends as the [try] block and its
    handler decide. *)
Lemma action_outcomes env request entries tr :
  formData request = Resolved entries ->
  truthy (Object_fromEntries entries !! "organization") = true ->
  (exists e t k n,
      (1 <= n <= 3)%nat /\
      action request env tr =
        (Threw e,
         tr ++ take n (provisioningCalls env
                         (Object_fromEntries entries !! "organization") t k))) \/
  (exists t k a,
      provisioned env (Object_fromEntries entries !! "organization") tr t k a = true /\
      action request env tr =
        (afterRegistration env (Object_fromEntries entries !! "organization")
           (registerSettles env (Object_fromEntries entries) tr t k a),
         tr ++ fullRun env (Object_fromEntries entries) t k a)).
Proof.
  intros Hform Htruthy.
  rewrite (action_run env request entries tr Hform Htruthy). cbn zeta.
  destruct (createTenant _ env tr) as [[t|e] tr1] eqn:H1.
  2:{ left. exists e, "", "", 1%nat. split; [lia|].
      destruct (createTenant_trace (Object_fromEntries entries !! "organization") env tr)
        as [o Ho].
      rewrite Ho in H1. inversion H1; subst. reflexivity. }
  apply createTenant_returns in H1 as [H1 ->].
  destruct (createApiKey _ t env _) as [[k|e] tr2] eqn:H2.
  2:{ left. exists e, t, "", 2%nat. split; [lia|].
      match type of H2 with
      | createApiKey ?o t env ?tr1 = _ =>
          destruct (createApiKey_trace o t env tr1) as [o2 Ho]
      end.
      rewrite Ho in H2. inversion H2; subst. rewrite <- app_assoc. reflexivity. }
  apply createApiKey_returns in H2 as [H2 ->].
  destruct (createApplication _ k env _) as [[a|e] tr3] eqn:H3.
  2:{ left. exists e, t, k, 3%nat. split; [lia|].
      match type of H3 with
      | createApplication ?o k env ?tr2 = _ =>
          destruct (createApplication_trace o k env tr2) as [o3 Ho]
      end.
      rewrite Ho in H3. inversion H3; subst. rewrite <- !app_assoc. reflexivity. }
  apply createApplication_returns in H3 as [H3 ->].
  right.
  assert (Hprov : provisioned env (Object_fromEntries entries !! "organization")
                    tr t k a = true).
  { unfold provisioned. rewrite H1. cbn.
    rewrite <- app_assoc in H3. cbn in H3. rewrite H2, H3. reflexivity. }
  exists t, k, a. split; [exact Hprov|].
  unfold registerSettles, fullRun, provisioningCalls. rewrite <- !app_assoc. reflexivity.
Qed.

(** X7: the action issues no provider call exactly when the request's form
    data cannot be read or its [organization] field is missing or empty;
    every other submission reaches the provider. *)
Theorem no_call_iff_validation_fails env request tr :
  (action request env tr).2 = tr <->
  (exists e, formData request = Rejected e) \/
  (exists entries, formData request = Resolved entries /\
                   truthy (Object_fromEntries entries !! "organization") = false).
Proof.
  split.
  - intros Hsame. destruct (formData request) as [entries|e] eqn:Hform; [|eauto].
    right. exists entries. split; [reflexivity|].
    destruct (truthy (Object_fromEntries entries !! "organization")) eqn:Htruthy;
      [|reflexivity].
    exfalso.
    destruct (action_outcomes env request entries tr Hform Htruthy)
      as [(e & t & k & n & Hn & Hrun) | (t & k & a & _ & Hrun)];
      rewrite Hrun in Hsame; cbn [snd] in Hsame;
      apply (f_equal length) in Hsame; rewrite length_app in Hsame.
    + rewrite length_take in Hsame. cbn in Hsame. lia.
    + cbn in Hsame. lia.
  - intros [[e Hform] | (entries & Hform & Hfalsy)].
    + rewrite (action_without_form env request tr e Hform). reflexivity.
    + rewrite (action_rejected env request entries tr Hform Hfalsy). reflexivity.
Qed.

(** X8: when the tenant was created but the createAPIKey call resolves
    without a key (or with an empty one), the action throws "FusionAuth API
    key create call was successful, but no API key was returned!" after
    exactly two calls; no application is created and nobody is registered. *)
Theorem api_key_without_key_aborts env request entries tr t r :
  formData request = Resolved entries ->
  truthy (Object_fromEntries entries !! "organization") = true ->
  tenantCreated env (Object_fromEntries entries !! "organization") tr t = true ->
  apiKeyReply (provider env)
    (tr ++ [tenantCall env (Object_fromEntries entries !! "organization")])
    defaultClient "" (apiKeyRequest (Object_fromEntries entries !! "organization") t)
    = Resolved r ->
  apiKeyOf r = None \/ apiKeyOf r = Some "" ->
  action request env tr =
    (Threw (Error
       "FusionAuth API key create call was successful, but no API key was returned!"),
     tr ++ [ tenantCall env (Object_fromEntries entries !! "organization");
             apiKeyCall (Object_fromEntries entries !! "organization") t ]).
Proof.
  intros Hform Htruthy H1 Hreply Hkey.
  rewrite (action_run env request entries tr Hform Htruthy). cbn zeta.
  rewrite (proj2 (createTenant_returns _ _ _ _ _) (conj H1 eq_refl)).
  rewrite createApiKey_run, Hreply.
  rewrite require_string_absent by assumption.
  rewrite <- app_assoc. reflexivity.
Qed.

Lemma api_key_without_key_aborts_witness :
  action acme_request keyless_env [] =
    (Threw (Error
       "FusionAuth API key create call was successful, but no API key was returned!"),
     [ tenantCall keyless_env (Some (EntryString "acme-corp"));
       apiKeyCall (Some (EntryString "acme-corp")) "t1" ]).
Proof.
  apply (api_key_without_key_aborts keyless_env acme_request acme_entries [] "t1"
           (Some {| statusCode := Some 200%Z;
                    response := Some {| created_apiKey := None |} |})).
  - reflexivity.
  - reflexivity.
  - reflexivity.
  - reflexivity.
  - left. reflexivity.
Defined.

(** X9: when tenant and key were created but the createApplication call
    resolves without an application id (or with an empty one), the action
    throws "An error occurred while creating the FusionAuth application."
    after exactly three calls; the register call is never issued. *)
Theorem application_without_id_aborts env request entries tr t k r :
  formData request = Resolved entries ->
  truthy (Object_fromEntries entries !! "organization") = true ->
  tenantCreated env (Object_fromEntries entries !! "organization") tr t = true ->
  apiKeyCreated env (Object_fromEntries entries !! "organization")
    (tr ++ [tenantCall env (Object_fromEntries entries !! "organization")]) t k = true ->
  applicationReply (provider env)
    (tr ++ [ tenantCall env (Object_fromEntries entries !! "organization");
             apiKeyCall (Object_fromEntries entries !! "organization") t ])
    (FusionAuthClient k (FUSIONAUTH_BASE_URL env)) ""
    (applicationRequest (Object_fromEntries entries !! "organization")) = Resolved r ->
  applicationIdOf r = None \/ applicationIdOf r = Some "" ->
  action request env tr =
    (Threw (Error "An error occurred while creating the FusionAuth application."),
     tr ++ provisioningCalls env (Object_fromEntries entries !! "organization") t k).
Proof.
  intros Hform Htruthy H1 H2 Hreply Hid.
  rewrite (action_run env request entries tr Hform Htruthy). cbn zeta.
  rewrite (proj2 (createTenant_returns _ _ _ _ _) (conj H1 eq_refl)).
  rewrite (proj2 (createApiKey_returns _ _ _ _ _ _) (conj H2 eq_refl)).
  rewrite createApplication_run.
  rewrite <- app_assoc. cbn [app]. rewrite Hreply.
  rewrite require_string_absent by assumption.
  unfold provisioningCalls. rewrite <- app_assoc. reflexivity.
Qed.

Lemma application_without_id_aborts_witness :
  action acme_request appless_env [] =
    (Threw (Error "An error occurred while creating the FusionAuth application."),
     provisioningCalls appless_env (Some (EntryString "acme-corp")) "t1" "k1").
Proof.
  apply (application_without_id_aborts appless_env acme_request acme_entries [] "t1" "k1"
           (Some {| statusCode := Some 200%Z;
                    response := Some {| created_application :=
                                          Some {| application_id := Some "" |} |} |})).
  - reflexivity.
  - reflexivity.
  - reflexivity.
  - reflexivity.
  - reflexivity.
  - right. reflexivity.
Defined.

Lemma no_call_iff_validation_fails_witness :
  (action anonymous_request happy_env []).2 = [].
Proof.
  apply (proj2 (no_call_iff_validation_fails happy_env anonymous_request [])).
  right. exists anonymous_entries. split; reflexivity.
Defined.

(** X10: when the action throws, either at most three calls were issued
    and none of them is register, or all four were issued, the register
    call was rejected, and the exception is the error with which [json]
    refused the rejection's statusCode in the handler.  The second case
    needs a standard [Response]; behind the polyfill an exception always
    means that nobody was registered. *)
Theorem exception_after_registration_only_from_json env request tr e tr' :
  action request env tr = (Threw e, tr') ->
  (exists calls,
      tr' = tr ++ calls /\
      length calls <= 3 /\
      Forall (fun c => operation_name (operation c) <> "register") calls) \/
  (exists entries t k a err name,
      formData request = Resolved entries /\
      tr' = tr ++ fullRun env (Object_fromEntries entries) t k a /\
      registerSettles env (Object_fromEntries entries) tr t k a = Rejected err /\
      Remix.statusError (nativeFetch env) (thrown_statusCode err) = Some name /\
      e = NativeError name /\
      nativeFetch env = true).
Proof.
  intros Hrun.
  destruct (formData request) as [entries|e0] eqn:Hform.
  2:{ rewrite (action_without_form env request tr e0 Hform) in Hrun.
      inversion Hrun; subst. left. exists []. rewrite app_nil_r.
      repeat split; cbn; [lia|constructor]. }
  destruct (truthy (Object_fromEntries entries !! "organization")) eqn:Htruthy.
  2:{ rewrite (action_rejected env request entries tr Hform Htruthy) in Hrun.
      inversion Hrun; subst. left. exists []. rewrite app_nil_r.
      repeat split; cbn; [lia|constructor]. }
  destruct (action_outcomes env request entries tr Hform Htruthy)
    as [(e1 & t & k & n & Hn & Hout) | (t & k & a & _ & Hout)];
    rewrite Hout in Hrun; inversion Hrun; subst.
  - left. eexists. split; [reflexivity|]. split.
    + rewrite length_take. cbn. lia.
    + apply Forall_take. unfold provisioningCalls. repeat constructor; discriminate.
  - right. exists entries, t, k, a.
    unfold afterRegistration in H0.
    destruct (registerSettles env (Object_fromEntries entries) tr t k a) as [r|err].
    + destruct (Remix.headerValueAccepted _ _); discriminate.
    + destruct (Remix.statusError _ _) as [name|] eqn:Hstatus; [|discriminate].
      inversion H0; subst. exists err, name.
      repeat split; try reflexivity; try assumption.
      destruct (nativeFetch env); [reflexivity|].
      destruct (thrown_statusCode err); discriminate.
Qed.

Lemma exception_after_registration_only_from_json_witness :
  (exists calls,
      provisioningCalls appless_env (Some (EntryString "acme-corp")) "t1" "k1"
        = [] ++ calls /\
      length calls <= 3 /\
      Forall (fun c => operation_name (operation c) <> "register") calls) /\
  (exists entries t k a err name,
      formData acme_request = Resolved entries /\
      fullRun not_modified_env (Object_fromEntries acme_entries) "t1" "k1" "a1"
        = [] ++ fullRun not_modified_env (Object_fromEntries entries) t k a /\
      registerSettles not_modified_env (Object_fromEntries entries) [] t k a
        = Rejected err /\
      Remix.statusError (nativeFetch not_modified_env) (thrown_statusCode err)
        = Some name /\
      NativeError "TypeError" = NativeError name /\
      nativeFetch not_modified_env = true).
Proof.
  split.
  - destruct (exception_after_registration_only_from_json appless_env acme_request []
                (Error "An error occurred while creating the FusionAuth application.")
                (provisioningCalls appless_env (Some (EntryString "acme-corp")) "t1" "k1")
                eq_refl)
      as [Hearly | (entries & t & k & a & err & name & _ & _ & _ & _ & Habs & _)].
    + exact Hearly.
    + discriminate Habs.
  - destruct (exception_after_registration_only_from_json not_modified_env acme_request []
                (NativeError "TypeError")
                (fullRun not_modified_env (Object_fromEntries acme_entries) "t1" "k1" "a1")
                eq_refl)
      as [(calls & Hcalls & Hlen & _) | Hlate].
    + cbn in Hcalls. subst calls. cbn in Hlen. lia.
    + exact Hlate.
Defined.

(** X11: whenever the action returns a result (the redirect or the JSON
    error), its last call is register, issued on the client of the tenant
    created in step 1, with [registration.applicationId] set to the id that
    createApplication returned and with a [user] object that holds every
    submitted field under its name (for a repeated name, the last value)
    and nothing else. *)
Theorem registration_payload env request tr res tr' :
  action request env tr = (Returned res, tr') ->
  exists entries t k a payload,
    formData request = Resolved entries /\
    let orgName := Object_fromEntries entries !! "organization" in
    last tr' = Some {| via := getFusionAuthClient t;
                       operation := RegisterUser "" payload |} /\
    tenantCreated env orgName tr t = true /\
    applicationCreated env orgName
      (tr ++ [tenantCall env orgName; apiKeyCall orgName t]) k a = true /\
    applicationId (registration payload) = a /\
    (forall before name v after,
        entries = before ++ (name, v) :: after -> name ∉ after.*1 ->
        user payload !! name = Some v) /\
    (forall name, name ∉ entries.*1 -> user payload !! name = None).
Proof.
  intros Hrun.
  destruct (formData request) as [entries|e0] eqn:Hform.
  2:{ rewrite (action_without_form env request tr e0 Hform) in Hrun. discriminate. }
  destruct (truthy (Object_fromEntries entries !! "organization")) eqn:Htruthy.
  2:{ rewrite (action_rejected env request entries tr Hform Htruthy) in Hrun.
      discriminate. }
  destruct (action_outcomes env request entries tr Hform Htruthy)
    as [(e1 & t & k & n & Hn & Hout) | (t & k & a & Hprov & Hout)];
    rewrite Hout in Hrun; [discriminate|].
  inversion Hrun; subst.
  exists entries, t, k, a, (registrationRequest (Object_fromEntries entries) a).
  split; [reflexivity|]. cbn zeta.
  unfold provisioned in Hprov.
  apply andb_true_iff in Hprov as [Hprov H3]. apply andb_true_iff in Hprov as [H1 _].
  split.
  { unfold fullRun. rewrite app_assoc. apply last_snoc. }
  repeat split; try assumption.
  - intros before name v after -> Hn. cbn. apply fromEntries_last_occurrence, Hn.
  - intros name Hn. cbn. apply fromEntries_missing, Hn.
Qed.

Lemma registration_payload_witness :
  exists entries t k a payload,
    formData repeated_request = Resolved entries /\
    let orgName := Object_fromEntries entries !! "organization" in
    last (fullRun happy_env (Object_fromEntries repeated_entries) "t1" "k1" "a1") =
      Some {| via := getFusionAuthClient t; operation := RegisterUser "" payload |} /\
    tenantCreated happy_env orgName [] t = true /\
    applicationCreated happy_env orgName
      ([] ++ [tenantCall happy_env orgName; apiKeyCall orgName t]) k a = true /\
    applicationId (registration payload) = a /\
    (forall before name v after,
        entries = before ++ (name, v) :: after -> name ∉ after.*1 ->
        user payload !! name = Some v) /\
    (forall name, name ∉ entries.*1 -> user payload !! name = None).
Proof.
  apply (registration_payload happy_env repeated_request []
           (redirect "acme-corp.saasbp.io/signin")).
  reflexivity.
Defined.

(** X12: in every run the calls follow the fixed order createTenant,
    createAPIKey, createApplication, register: the calls issued are an
    initial segment of that sequence, so no call is repeated or skipped,
    and each is made with the empty string as its id argument. *)
Theorem calls_follow_the_fixed_order env request tr :
  exists calls,
    (action request env tr).2 = tr ++ calls /\
    (fun c => operation_name (operation c)) <$> calls
      `prefix_of` ["createTenant"; "createAPIKey"; "createApplication"; "register"] /\
    Forall (fun c => operation_id (operation c) = "") calls.
Proof.
  destruct (formData request) as [entries|e] eqn:Hform.
  2:{ exists []. rewrite (action_without_form env request tr e Hform), app_nil_r.
      split; [reflexivity|]. split; [apply prefix_nil | constructor]. }
  destruct (action_trace env request entries tr Hform) as (t & k & a & calls & Htr & Hpre).
  exists calls. split; [exact Htr|].
  destruct Hpre as [rest Hfull]. split.
  - exists ((fun c => operation_name (operation c)) <$> rest).
    rewrite <- fmap_app, <- Hfull. reflexivity.
  - assert (Hall : Forall (fun c => operation_id (operation c) = "")
                     (fullRun env (Object_fromEntries entries) t k a))
      by (repeat constructor).
    rewrite Hfull in Hall. apply Forall_app in Hall as [Hall _]. exact Hall.
Qed.

(** X13: the type of the organization field is not checked: when it holds
    an uploaded file instead of a string, validation passes, the file is
    sent as the tenant name, and after four successful calls the action
    redirects to "[object File].saasbp.io/signin". *)
Theorem file_organization_is_accepted env request entries fileName tr t k a r :
  formData request = Resolved entries ->
  Object_fromEntries entries !! "organization" = Some (EntryFile fileName) ->
  provisioned env (Some (EntryFile fileName)) tr t k a = true ->
  registerSettles env (Object_fromEntries entries) tr t k a = Resolved r ->
  action request env tr =
    (Returned (redirect "[object File].saasbp.io/signin"),
     tr ++ fullRun env (Object_fromEntries entries) t k a) /\
  (tr ++ fullRun env (Object_fromEntries entries) t k a) !! length tr =
    Some {| via := defaultClient;
            operation := CreateTenant ""
              {| sourceTenantId := clientTenantId env defaultClient;
                 tenant := {| tenant_name := Some (EntryFile fileName);
                              issuer := "saasbp.io" |} |} |}.
Proof.
  intros Hform Horg Hprov Hreg.
  assert (Htruthy : truthy (Object_fromEntries entries !! "organization") = true)
    by (rewrite Horg; reflexivity).
  rewrite <- Horg in Hprov.
  rewrite (action_provisioned env request entries tr Hform t k a Htruthy Hprov).
  cbn zeta. rewrite Hreg, Horg. split.
  - unfold afterRegistration. cbn [template].
    replace (Remix.headerValueAccepted (nativeFetch env)
               ("[object File]" +:+ ".saasbp.io/signin")) with true
      by (destruct (nativeFetch env); vm_compute; reflexivity).
    reflexivity.
  - rewrite lookup_app_r by lia. rewrite Nat.sub_diag.
    unfold fullRun. rewrite Horg. reflexivity.
Qed.

Lemma file_organization_is_accepted_witness :
  action file_request happy_env [] =
    (Returned (redirect "[object File].saasbp.io/signin"),
     [] ++ fullRun happy_env (Object_fromEntries file_entries) "t1" "k1" "a1") /\
  ([] ++ fullRun happy_env (Object_fromEntries file_entries) "t1" "k1" "a1") !! 0%nat =
    Some {| via := defaultClient;
            operation := CreateTenant ""
              {| sourceTenantId := clientTenantId happy_env defaultClient;
                 tenant := {| tenant_name := Some (EntryFile "logo.png");
                              issuer := "saasbp.io" |} |} |}.
Proof.
  apply (file_organization_is_accepted happy_env file_request file_entries "logo.png" []
           "t1" "k1" "a1"
           (Some {| statusCode := Some 200%Z; response := Some {| token := None |} |})).
  - reflexivity.
  - reflexivity.
  - reflexivity.
  - reflexivity.
Defined.

(** X14: the organization name is used as submitted, without any
    sanitizing on the server: for every non-empty organization string the
    first call is createTenant on the default client, with the default
    client's tenant as source tenant, the string itself as tenant name and
    "saasbp.io" as issuer. *)
Theorem tenant_request_uses_the_raw_organization env request entries org tr :
  formData request = Resolved entries ->
  Object_fromEntries entries !! "organization" = Some (EntryString org) ->
  org <> "" ->
  (action request env tr).2 !! length tr =
    Some {| via := defaultClient;
            operation := CreateTenant ""
              {| sourceTenantId := clientTenantId env defaultClient;
                 tenant := {| tenant_name := Some (EntryString org);
                              issuer := "saasbp.io" |} |} |}.
Proof.
  intros Hform Horg Hne.
  assert (Htruthy : truthy (Object_fromEntries entries !! "organization") = true).
  { rewrite Horg. destruct org; [congruence | reflexivity]. }
  destruct (action_outcomes env request entries tr Hform Htruthy)
    as [(e & t & k & n & Hn & Hrun) | (t & k & a & _ & Hrun)];
    rewrite Hrun; cbn [snd]; unfold Trace;
    rewrite lookup_app_r by lia; rewrite Nat.sub_diag.
  - rewrite Horg. destruct n as [|n]; [lia | reflexivity].
  - unfold fullRun. rewrite Horg. reflexivity.
Qed.

Lemma tenant_request_uses_the_raw_organization_witness :
  (action acme_request empty_tenant_env []).2 !! 0%nat =
    Some {| via := defaultClient;
            operation := CreateTenant ""
              {| sourceTenantId := clientTenantId empty_tenant_env defaultClient;
                 tenant := {| tenant_name := Some (EntryString "acme-corp");
                              issuer := "saasbp.io" |} |} |}.
Proof.
  apply (tenant_request_uses_the_raw_organization empty_tenant_env acme_request
           acme_entries "acme-corp" []).
  - reflexivity.
  - reflexivity.
  - discriminate.
Defined.

(** X15: every createAPIKey call of a run is issued on the default client
    with the empty id, and its key is described as "API key for
    <organization name>". *)
Theorem api_key_description env request entries org c id req :
  formData request = Resolved entries ->
  Object_fromEntries entries !! "organization" = Some (EntryString org) ->
  {| via := c; operation := CreateAPIKey id req |} ∈ (action request env []).2 ->
  c = defaultClient /\ id = "" /\
  description (attributes (metaData (apiKey req))) = "API key for " +:+ org.
Proof.
  intros Hform Horg Hin.
  destruct (action_trace env request entries [] Hform) as (t & k & a & calls & Htr & Hpre).
  rewrite Htr in Hin. cbn in Hin.
  destruct Hpre as [rest Hfull].
  assert (Hall : {| via := c; operation := CreateAPIKey id req |}
                   ∈ fullRun env (Object_fromEntries entries) t k a).
  { rewrite Hfull. apply elem_of_app. left. exact Hin. }
  unfold fullRun, provisioningCalls in Hall. cbn in Hall.
  repeat (apply elem_of_cons in Hall as [Hall | Hall]; [try discriminate Hall|]).
  - inversion Hall; subst. rewrite Horg. auto.
  - apply elem_of_nil in Hall. contradiction.
Qed.

Lemma api_key_description_witness :
  apiKeyCall (Some (EntryString "acme-corp")) "t1" ∈ (action acme_request happy_env []).2 /\
  description (attributes (metaData (apiKey
     (apiKeyRequest (Some (EntryString "acme-corp")) "t1")))) = "API key for acme-corp".
Proof.
  assert (Hin : apiKeyCall (Some (EntryString "acme-corp")) "t1"
                  ∈ (action acme_request happy_env []).2).
  { apply list_elem_of_lookup. exists 1%nat. reflexivity. }
  split; [exact Hin|].
  exact (proj2 (proj2 (api_key_description happy_env acme_request acme_entries "acme-corp"
                         _ _ _ eq_refl eq_refl Hin))).
Defined.

(** ** The form and the action together *)

Lemma units_app a b :
  SignUp.units (a +:+ b) = SignUp.units a ++ SignUp.units b.
Proof.
  unfold SignUp.units. induction a as [|x a IH]; [reflexivity|].
  change (String x a +:+ b) with (String x (a +:+ b)). cbn.
  f_equal. exact IH.
Qed.

Lemma action_redirect_target env request entries tr url tr' :
  formData request = Resolved entries ->
  action request env tr = (Returned (redirect url), tr') ->
  truthy (Object_fromEntries entries !! "organization") = true /\
  url = template (Object_fromEntries entries !! "organization") +:+ ".saasbp.io/signin".
Proof.
  intros Hform Hrun.
  destruct (truthy (Object_fromEntries entries !! "organization")) eqn:Htruthy.
  2:{ rewrite (action_rejected env request entries tr Hform Htruthy) in Hrun.
      discriminate. }
  split; [reflexivity|].
  destruct (action_outcomes env request entries tr Hform Htruthy)
    as [(e & t & k & n & _ & Hout) | (t & k & a & _ & Hout)];
    rewrite Hout in Hrun; [discriminate|].
  inversion Hrun as [[Hres Htr]]. unfold afterRegistration in Hres.
  destruct (registerSettles _ _ _ _ _ _).
  - destruct (Remix.headerValueAccepted _ _); inversion Hres. reflexivity.
  - destruct (Remix.statusError _ _); discriminate.
Qed.

(** X16: the domain the form announces is not the one the action redirects
    to: whenever the action redirects for the organization name [org], the
    hint the form shows for that name starts with "<org>.sass.io", while
    the redirect target does not. *)
Theorem announced_domain_differs_from_redirect env request entries org tr url tr' :
  formData request = Resolved entries ->
  Object_fromEntries entries !! "organization" = Some (EntryString org) ->
  action request env tr = (Returned (redirect url), tr') ->
  (SignUp.units org ++ SignUp.units ".sass.io")
    `prefix_of` SignUp.domainHint (SignUp.units org) /\
  ~ (SignUp.units org ++ SignUp.units ".sass.io") `prefix_of` SignUp.units url.
Proof.
  intros Hform Horg Hrun.
  destruct (action_redirect_target env request entries tr url tr' Hform Hrun)
    as [Htruthy ->].
  rewrite Horg in *. cbn [template]. split.
  - destruct org as [|x org]; [discriminate Htruthy|].
    change (SignUp.domainHint (SignUp.units (String x org)))
      with (SignUp.units (String x org)
              ++ SignUp.units ".sass.io" ++ SignUp.units " will be your custom domain.").
    apply prefix_app, prefix_app_r. reflexivity.
  - rewrite units_app. intros Hpre. apply prefix_app_inv in Hpre.
    destruct Hpre as [rest Hrest]. cbn in Hrest. discriminate.
Qed.

Lemma announced_domain_differs_from_redirect_witness :
  (SignUp.units "acme-corp" ++ SignUp.units ".sass.io")
    `prefix_of` SignUp.domainHint (SignUp.units "acme-corp") /\
  ~ (SignUp.units "acme-corp" ++ SignUp.units ".sass.io")
      `prefix_of` SignUp.units "acme-corp.saasbp.io/signin".
Proof.
  apply (announced_domain_differs_from_redirect happy_env acme_request acme_entries
           "acme-corp" [] "acme-corp.saasbp.io/signin"
           (fullRun happy_env (Object_fromEntries acme_entries) "t1" "k1" "a1")).
  - reflexivity.
  - reflexivity.
  - reflexivity.
Defined.

(** ** What the helpers return *)

(** X17: a helper that returns, returns a non-empty string, and that
    string is the id or key found in the response its call resolved with;
    it has issued exactly its one call. *)
Theorem helpers_return_what_the_provider_sent orgName env tr :
  (forall t tr',
      createTenant orgName env tr = (Returned t, tr') ->
      t <> "" /\ tr' = tr ++ [tenantCall env orgName] /\
      exists r, tenantReply (provider env) tr defaultClient ""
                  (tenantConfig env orgName) = Resolved r /\
                tenantIdOf r = Some t) /\
  (forall t k tr',
      createApiKey orgName t env tr = (Returned k, tr') ->
      k <> "" /\ tr' = tr ++ [apiKeyCall orgName t] /\
      exists r, apiKeyReply (provider env) tr defaultClient ""
                  (apiKeyRequest orgName t) = Resolved r /\
                apiKeyOf r = Some k) /\
  (forall k a tr',
      createApplication orgName k env tr = (Returned a, tr') ->
      a <> "" /\ tr' = tr ++ [applicationCall env orgName k] /\
      exists r, applicationReply (provider env) tr
                  (FusionAuthClient k (FUSIONAUTH_BASE_URL env)) ""
                  (applicationRequest orgName) = Resolved r /\
                applicationIdOf r = Some a).
Proof.
  repeat split.
  - apply createTenant_returns in H as [H _]. unfold tenantCreated in H.
    destruct (tenantReply _ _ _ _ _); [|discriminate].
    apply has_value_true in H. tauto.
  - apply createTenant_returns in H. tauto.
  - apply createTenant_returns in H as [H _]. unfold tenantCreated in H.
    destruct (tenantReply _ _ _ _ _) as [r|]; [|discriminate].
    apply has_value_true in H. exists r. tauto.
  - apply createApiKey_returns in H as [H _]. unfold apiKeyCreated in H.
    destruct (apiKeyReply _ _ _ _ _); [|discriminate].
    apply has_value_true in H. tauto.
  - apply createApiKey_returns in H. tauto.
  - apply createApiKey_returns in H as [H _]. unfold apiKeyCreated in H.
    destruct (apiKeyReply _ _ _ _ _) as [r|]; [|discriminate].
    apply has_value_true in H. exists r. tauto.
  - apply createApplication_returns in H as [H _]. unfold applicationCreated in H.
    destruct (applicationReply _ _ _ _ _); [|discriminate].
    apply has_value_true in H. tauto.
  - apply createApplication_returns in H. tauto.
  - apply createApplication_returns in H as [H _]. unfold applicationCreated in H.
    destruct (applicationReply _ _ _ _ _) as [r|]; [|discriminate].
    apply has_value_true in H. exists r. tauto.
Qed.

Lemma helpers_return_what_the_provider_sent_witness :
  "t1" <> "" /\
  [tenantCall happy_env (Some (EntryString "acme-corp"))] =
    [] ++ [tenantCall happy_env (Some (EntryString "acme-corp"))] /\
  exists r, tenantReply (provider happy_env) [] defaultClient ""
              (tenantConfig happy_env (Some (EntryString "acme-corp"))) = Resolved r /\
            tenantIdOf r = Some "t1".
Proof.
  apply (proj1 (helpers_return_what_the_provider_sent
                  (Some (EntryString "acme-corp")) happy_env [])).
  reflexivity.
Defined.

(** ** Names the form produces *)

Lemma forallb_strip_leading (P : N -> bool) value :
  forallb P value = true -> forallb P (Remix.strip_leading value) = true.
Proof.
  induction value as [|c rest IH]; [reflexivity|]. intros Hall. cbn.
  destruct (Remix.is_http_whitespace c); [|exact Hall].
  cbn in Hall. apply andb_true_iff in Hall as [_ Hrest]. apply IH, Hrest.
Qed.

Lemma forallb_rev (P : N -> bool) value :
  forallb P value = true -> forallb P (rev value) = true.
Proof.
  rewrite !forallb_forall. intros Hall c Hc. apply Hall, in_rev, Hc.
Qed.

Lemma forallb_normalize (P : N -> bool) value :
  forallb P value = true -> forallb P (Remix.normalize value) = true.
Proof.
  intros Hall. unfold Remix.normalize.
  apply forallb_rev, forallb_strip_leading, forallb_rev, forallb_strip_leading, Hall.
Qed.

Lemma slug_char_in_header c :
  SignUp.is_slug_char c = true ->
  negb (Remix.forbidden c) = true /\ Remix.admitted c = true.
Proof.
  intros Hc. unfold SignUp.is_slug_char, SignUp.between in Hc.
  repeat rewrite ?orb_true_iff, ?andb_true_iff, ?N.leb_le, ?N.eqb_eq in Hc.
  unfold Remix.forbidden, Remix.admitted. split.
  - apply negb_true_iff, not_true_is_false. intros Hf.
    repeat rewrite ?orb_true_iff, ?N.eqb_eq in Hf. lia.
  - repeat rewrite ?orb_true_iff, ?andb_true_iff, ?N.leb_le, ?N.eqb_eq. lia.
Qed.

Lemma slug_name_target_accepted native org :
  Forall (fun c => SignUp.is_slug_char c = true) (SignUp.units org) ->
  Remix.headerValueAccepted native (org +:+ ".saasbp.io/signin") = true.
Proof.
  intros Hslug.
  assert (Hboth : forallb (fun c => negb (Remix.forbidden c))
                    (Remix.bytes (org +:+ ".saasbp.io/signin")) = true /\
                  forallb Remix.admitted
                    (Remix.bytes (org +:+ ".saasbp.io/signin")) = true).
  { change Remix.bytes with SignUp.units. rewrite units_app, !forallb_app.
    assert (Horg : forallb (fun c => negb (Remix.forbidden c)) (SignUp.units org) = true /\
                   forallb Remix.admitted (SignUp.units org) = true).
    { induction Hslug as [|c rest Hc _ [IH1 IH2]]; [split; reflexivity|].
      destruct (slug_char_in_header c Hc) as [H1 H2].
      cbn [forallb]. rewrite H1, H2, IH1, IH2. split; reflexivity. }
    destruct Horg as [-> ->]. split; reflexivity. }
  destruct Hboth as [Hnative Hpolyfill]. unfold Remix.headerValueAccepted.
  destruct native; [apply forallb_normalize, Hnative | exact Hpolyfill].
Qed.

(** X18: an organization name as the form produces it, made of letters,
    digits and hyphens only, is always a target [redirect] accepts, on
    either runtime: when the four provider calls succeed for such a name,
    the action returns the redirect to "<name>.saasbp.io/signin". *)
Theorem slug_names_always_redirect env request entries org tr t k a r :
  formData request = Resolved entries ->
  Object_fromEntries entries !! "organization" = Some (EntryString org) ->
  org <> "" ->
  Forall (fun c => SignUp.is_slug_char c = true) (SignUp.units org) ->
  provisioned env (Some (EntryString org)) tr t k a = true ->
  registerSettles env (Object_fromEntries entries) tr t k a = Resolved r ->
  action request env tr =
    (Returned (redirect (org +:+ ".saasbp.io/signin")),
     tr ++ fullRun env (Object_fromEntries entries) t k a).
Proof.
  intros Hform Horg Hne Hslug Hprov Hreg.
  assert (Htruthy : truthy (Object_fromEntries entries !! "organization") = true).
  { rewrite Horg. destruct org; [congruence | reflexivity]. }
  rewrite <- Horg in Hprov.
  rewrite (action_provisioned env request entries tr Hform t k a Htruthy Hprov).
  cbn zeta. rewrite Hreg, Horg. unfold afterRegistration. cbn [template].
  rewrite (slug_name_target_accepted (nativeFetch env) org Hslug). reflexivity.
Qed.

Lemma slug_names_always_redirect_witness :
  action acme_request (polyfill happy_env) [] =
    (Returned (redirect "acme-corp.saasbp.io/signin"),
     fullRun (polyfill happy_env) (Object_fromEntries acme_entries) "t1" "k1" "a1").
Proof.
  apply (slug_names_always_redirect (polyfill happy_env) acme_request acme_entries
           "acme-corp" [] "t1" "k1" "a1"
           (Some {| statusCode := Some 200%Z; response := Some {| token := None |} |})).
  - reflexivity.
  - reflexivity.
  - discriminate.
  - repeat constructor.
  - reflexivity.
  - reflexivity.
Defined.
